(** * Sentiment analysis service: result normalisation, history and statistics

    A shallow embedding of the Python sources

      - [models/model.py]        (class [SentimentAnalyzer])
      - [data/data_loader.py]    (class [DataManager])
      - [utils/preprocessing.py] (class [TextPreprocessor])
      - [main.py]                (the two analysis endpoints and
                                  [calculate_batch_stats])

    followed by the properties of the specification that were checked
    against them.

    Conventions of the embedding.

    - A Python [str] is a Rocq [string] holding its UTF-8 encoding.  The
      analyzer and the endpoints count and cut a text in characters
      ([strlen], [take_chars]) and know all the whitespace of Python
      ([str_strip], [blank]).  The case maps and the classes of the
      regular expressions ([lower], [upper], [isspace], [isword]) are
      those of Python on the ASCII range: the Text Normalizer is exact
      for ASCII text.  Emoji appear as their UTF-8 bytes, which is enough
      for the substring tests and replacements the code performs on
      them.
    - A Python [float] is a rational ([Q]): a literal denotes its decimal
      value, arithmetic is exact, and [round(x, n)] rounds the exact value
      half-to-even at [n] decimals.  Numerical facts are stated up to [==]
      where the representation of the rational could matter.
    - A dictionary produced by the program is a record or a tagged union
      whose constructors are the shapes the program builds; the test
      ['sentiment' in r] is the test for the success shape.
    - Exceptions are values of [PyException]; a function that may raise
      returns [Exc].  The classifier, [time.time()] and
      [datetime.now().isoformat()] are parameters of the development, and
      the calls made to the classifier are logged in the [World]. *)

From Stdlib Require Import String Ascii List Bool Arith ZArith QArith Lia Lqa.
Import ListNotations.

Close Scope Q_scope.

(* ================================================================== *)
(** * Python primitives                                                 *)
(* ================================================================== *)

Module Py.

Local Open Scope string_scope.

(** ** Exceptions *)

Inductive PyException : Type :=
| ValueError_empty_text                    (* ValueError("El texto no puede estar vacío") *)
| ValueError_int_literal (token : string)  (* int(token) rejected the literal *)
| IndexError                               (* list index out of range *)
| ClassifierError (msg : string).          (* anything the classifier raised *)

Inductive Exc (A : Type) : Type :=
| Return (a : A)
| Raise (e : PyException).

Arguments Return {A} a.
Arguments Raise {A} e.

(** ** Characters *)

Definition code (c : ascii) : nat := nat_of_ascii c.

Definition in_range (lo hi : nat) (c : ascii) : bool :=
  (lo <=? code c)%nat && (code c <=? hi)%nat.

(** [str.isspace] on one character of the ASCII range: TAB..CR, FS..US
    and the space. *)
Definition isspace (c : ascii) : bool :=
  in_range 9 13 c || in_range 28 31 c || (code c =? 32)%nat.

Definition isupper_char (c : ascii) : bool := in_range 65 90 c.
Definition islower_char (c : ascii) : bool := in_range 97 122 c.
Definition isdigit (c : ascii) : bool := in_range 48 57 c.

Definition lower_char (c : ascii) : ascii :=
  if isupper_char c then ascii_of_nat (code c + 32) else c.

Definition upper_char (c : ascii) : ascii :=
  if islower_char c then ascii_of_nat (code c - 32) else c.

(** The class [\w] of the [re] module. *)
Definition isword (c : ascii) : bool :=
  islower_char c || isupper_char c || isdigit c || (code c =? 95)%nat.

(** ** Strings *)

Fixpoint map_string (f : ascii -> ascii) (s : string) : string :=
  match s with
  | EmptyString => EmptyString
  | String c s' => String (f c) (map_string f s')
  end.

Definition lower (s : string) : string := map_string lower_char s.
Definition upper (s : string) : string := map_string upper_char s.

Fixpoint forallb_string (p : ascii -> bool) (s : string) : bool :=
  match s with
  | EmptyString => true
  | String c s' => p c && forallb_string p s'
  end.

Fixpoint existsb_string (p : ascii -> bool) (s : string) : bool :=
  match s with
  | EmptyString => false
  | String c s' => p c || existsb_string p s'
  end.

Fixpoint count_string (p : ascii -> bool) (s : string) : nat :=
  match s with
  | EmptyString => 0
  | String c s' => (if p c then 1 else 0) + count_string p s'
  end.


(** [needle in hay]. *)
Fixpoint contains (needle hay : string) : bool :=
  prefix needle hay ||
  match hay with
  | EmptyString => false
  | String _ hay' => contains needle hay'
  end.

(** Dropping the leading, respectively trailing, characters that
    satisfy [p]. *)
Fixpoint lstrip_by (p : ascii -> bool) (s : string) : string :=
  match s with
  | EmptyString => EmptyString
  | String c s' => if p c then lstrip_by p s' else s
  end.

Fixpoint rstrip_by (p : ascii -> bool) (s : string) : string :=
  match s with
  | EmptyString => EmptyString
  | String c s' =>
      match rstrip_by p s' with
      | EmptyString => if p c then EmptyString else String c EmptyString
      | r => String c r
      end
  end.

(** [s.strip()] where the whitespace is that of the ASCII range. *)
Definition strip (s : string) : string :=
  rstrip_by isspace (lstrip_by isspace s).

(** [s.split()]: the maximal runs of non-whitespace characters. [word] is
    the run being read, if any. *)
Fixpoint split_from (word : option string) (s : string) : list string :=
  match s with
  | EmptyString => match word with Some w => [w] | None => [] end
  | String c s' =>
      if isspace c then
        match word with
        | Some w => w :: split_from None s'
        | None => split_from None s'
        end
      else
        split_from
          (Some (match word with
                 | Some w => w ++ String c EmptyString
                 | None => String c EmptyString
                 end)) s'
  end.

Definition split (s : string) : list string := split_from None s.

(** [s[:n]] and [s[n:]]. *)
Definition take (n : nat) (s : string) : string := substring 0 n s.

Fixpoint drop (n : nat) (s : string) : string :=
  match n, s with
  | S k, String _ s' => drop k s'
  | _, _ => s
  end.

Definition newline : ascii := ascii_of_nat 10.

(** Substitution of every non-overlapping match, left to right, as
    [str.replace] and [re.sub] do for patterns that match no empty string.
    [matcher s] tells whether a match starts at the head of [s], and then
    gives its length and its replacement; [skip] counts the characters of
    the current match still to be dropped. *)
Fixpoint sub_from (matcher : string -> option (nat * string))
  (skip : nat) (s : string) : string :=
  match s with
  | EmptyString => EmptyString
  | String c s' =>
      match skip with
      | S k => sub_from matcher k s'
      | O =>
          match matcher s with
          | Some (n, repl) => repl ++ sub_from matcher (Nat.pred n) s'
          | None => String c (sub_from matcher 0 s')
          end
      end
  end.

Definition sub_all (matcher : string -> option (nat * string)) (s : string)
  : string := sub_from matcher 0 s.

(** [s.replace(old, new)] for a non-empty [old]. *)
Definition replace (old new s : string) : string :=
  sub_all (fun t => if prefix old t then Some (String.length old, new) else None) s.

(** The length of the longest prefix whose characters satisfy [p]. *)
Fixpoint run_length (p : ascii -> bool) (s : string) : nat :=
  match s with
  | EmptyString => 0
  | String c s' => if p c then S (run_length p s') else 0
  end.

(** ** Integers: [int(s)] in base 10 *)

Definition digit_value (c : ascii) : Z := Z.of_nat (code c - 48).

(** Digits with single underscores between them; [prev_digit] tells
    whether the previous character was a digit. *)
Fixpoint int_digits (acc : Z) (prev_digit : bool) (s : string) : option Z :=
  match s with
  | EmptyString => if prev_digit then Some acc else None
  | String c s' =>
      if isdigit c then int_digits (10 * acc + digit_value c) true s'
      else if (code c =? 95)%nat then
        if prev_digit then int_digits acc false s' else None
      else None
  end.

(** The whitespace [int] ignores around the literal: TAB..CR and the
    space. *)
Definition isspace_c (c : ascii) : bool :=
  in_range 9 13 c || (code c =? 32)%nat.

(** The limit that recent interpreters put on the number of digits of the
    literal is not part of the embedding. *)
Definition int (s : string) : option Z :=
  match rstrip_by isspace_c (lstrip_by isspace_c s) with
  | String "+" s' => int_digits 0 false s'
  | String "-" s' => option_map Z.opp (int_digits 0 false s')
  | s' => int_digits 0 false s'
  end.

(** ** Floats as rationals *)

Fixpoint pow10 (n : nat) : positive :=
  match n with
  | O => 1%positive
  | S k => (10 * pow10 k)%positive
  end.

(** The integer nearest to [q], ties to the even one. *)
Definition round_half_even (q : Q) : Z :=
  let n := Qnum q in
  let d := Zpos (Qden q) in
  let fl := (n / d)%Z in
  let twice_rem := (2 * (n mod d))%Z in
  if (twice_rem <? d)%Z then fl
  else if (d <? twice_rem)%Z then (fl + 1)%Z
  else if Z.even fl then fl else (fl + 1)%Z.

(** [round(x, ndigits)]. *)
Definition round (x : Q) (ndigits : nat) : Q :=
  Qred (round_half_even (x * (Zpos (pow10 ndigits) # 1))%Q # pow10 ndigits).

(** [x > y] on floats. *)
Definition gt (x y : Q) : bool :=
  match Qcompare x y with Gt => true | _ => false end.

(** [sum(xs)]. *)
Definition sum (xs : list Q) : Q := fold_left Qplus xs 0%Q.

(** [len(xs)] as a number one can divide by. *)
Definition len {A : Type} (xs : list A) : Q := inject_Z (Z.of_nat (List.length xs)).

(** [xs[start:]] with Python's treatment of a negative or too large
    [start]. *)
Definition slice_from {A : Type} (start : Z) (xs : list A) : list A :=
  let n := Z.of_nat (List.length xs) in
  let s := if (start <? 0)%Z then Z.max (start + n) 0 else Z.min start n in
  skipn (Z.to_nat s) xs.

(** ** The characters of a text

    A text holds the UTF-8 encoding of a Python [str].  The bytes 128 to
    191 continue a character; every other byte, and the first byte of a
    text, begins one.  [len] and the slices of a text count characters. *)

Definition is_continuation (c : ascii) : bool := in_range 128 191 c.

Definition begins_char (c : ascii) : bool := negb (is_continuation c).

(** [len(s)] for a text. *)
Definition strlen (s : string) : nat :=
  match s with
  | EmptyString => 0
  | String _ s' => S (count_string begins_char s')
  end.

(** The rest of the character being read, and [n] characters more. *)
Fixpoint take_more (n : nat) (s : string) : string :=
  match s with
  | EmptyString => EmptyString
  | String c s' =>
      if is_continuation c then String c (take_more n s')
      else
        match n with
        | O => EmptyString
        | S k => String c (take_more k s')
        end
  end.

(** [s[:n]] for a text. *)
Definition take_chars (n : nat) (s : string) : string :=
  match n, s with
  | S k, String c s' => String c (take_more k s')
  | _, _ => EmptyString
  end.

Fixpoint drop_more (n : nat) (s : string) : string :=
  match s with
  | EmptyString => EmptyString
  | String c s' =>
      if is_continuation c then drop_more n s'
      else
        match n with
        | O => s
        | S k => drop_more k s'
        end
  end.

(** [s[n:]] for a text. *)
Definition drop_chars (n : nat) (s : string) : string :=
  match n, s with
  | S k, String c s' => drop_more k s'
  | _, _ => s
  end.

(** The text made of the given bytes. *)
Definition bytes (codes : list nat) : string :=
  string_of_list_ascii (map ascii_of_nat codes).

(** The characters for which [str.isspace] holds, each as its encoding:
    U+0009 to U+000D, U+001C to U+0020, U+0085, U+00A0, U+1680, U+2000 to
    U+200A, U+2028, U+2029, U+202F, U+205F and U+3000. *)
Definition whitespace : list string :=
  map bytes
    [ [9]; [10]; [11]; [12]; [13]; [28]; [29]; [30]; [31]; [32];
      [194; 133]; [194; 160]; [225; 154; 128]; [226; 128; 128];
      [226; 128; 129]; [226; 128; 130]; [226; 128; 131]; [226; 128; 132];
      [226; 128; 133]; [226; 128; 134]; [226; 128; 135]; [226; 128; 136];
      [226; 128; 137]; [226; 128; 138]; [226; 128; 168]; [226; 128; 169];
      [226; 128; 175]; [226; 129; 159]; [227; 128; 128] ].

(** The number of bytes of the whitespace character at the head of the
    text; 0 when the text does not begin with one. *)
Definition space_width (s : string) : nat :=
  match find (fun w => prefix w s) whitespace with
  | Some w => String.length w
  | None => 0
  end.

(** [s.lstrip()] and [s.rstrip()] for a text, with all the whitespace of
    Python; [skip] counts the bytes still to read of the whitespace
    character at hand. *)
Fixpoint lstrip_from (skip : nat) (s : string) : string :=
  match s with
  | EmptyString => EmptyString
  | String c s' =>
      match skip with
      | S k => lstrip_from k s'
      | O =>
          match space_width s with
          | O => s
          | S k => lstrip_from k s'
          end
      end
  end.

Fixpoint rstrip_from (skip : nat) (s : string) : string :=
  match s with
  | EmptyString => EmptyString
  | String c s' =>
      match skip with
      | S k =>
          match rstrip_from k s' with
          | EmptyString => EmptyString
          | r => String c r
          end
      | O =>
          match space_width s with
          | O => String c (rstrip_from 0 s')
          | S k =>
              match rstrip_from k s' with
              | EmptyString => EmptyString
              | r => String c r
              end
          end
      end
  end.

(** [s.strip()] for a text. *)
Definition str_strip (s : string) : string :=
  rstrip_from 0 (lstrip_from 0 s).

(** [sep.join(words)]. *)
Fixpoint join (sep : string) (words : list string) : string :=
  match words with
  | [] => EmptyString
  | w :: ws =>
      match ws with
      | [] => w
      | _ :: _ => w ++ sep ++ join sep ws
      end
  end.

(** The matcher of [p+] for a class [p] of characters, with its
    replacement. *)
Definition match_run (p : ascii -> bool) (repl : string) (s : string)
  : option (nat * string) :=
  match run_length p s with
  | O => None
  | S n => Some (S n, repl)
  end.

End Py.

Import Py.

(* ================================================================== *)
(** * models/model.py: the canonical record and the Result Normalizer   *)
(* ================================================================== *)

Inductive Sentiment : Type := POSITIVE | NEGATIVE | NEUTRAL.

Definition Sentiment_eq_dec (a b : Sentiment) : {a = b} + {a <> b}.
Proof. decide equality. Defined.

(** What the classifier returns for one text: [{'label': ..., 'score': ...}]. *)
Record RawResult : Type := mkRaw {
  label : string;
  score : Q
}.

(** The dictionary built by [_process_result]. *)
Record SentimentData : Type := mkData {
  sentiment : Sentiment;
  confidence : Q;
  stars : Z;
  emoji : string;
  sentiment_score : Q;
  raw_label : string
}.

(** The dictionary returned by [analyze], with the key [index] that
    [analyze_batch] adds.  [Analysis] is the shape that has the key
    [sentiment]; [Failure] is the shape that has the key [error]. *)
Inductive Result : Type :=
| Analysis (data : SentimentData) (text_original text_analyzed : string)
    (text_truncated : bool) (text_length : nat) (processing_time : Q)
    (index : option nat)
| Failure (error : PyException) (text_original : string)
    (processing_time : option Q) (index : option nat).

(** ['sentiment' in r]. *)
Definition has_sentiment (r : Result) : bool :=
  match r with Analysis _ _ _ _ _ _ _ => true | Failure _ _ _ _ => false end.

Definition text_original (r : Result) : string :=
  match r with
  | Analysis _ t _ _ _ _ _ => t
  | Failure _ t _ _ => t
  end.

Definition index (r : Result) : option nat :=
  match r with
  | Analysis _ _ _ _ _ _ i => i
  | Failure _ _ _ i => i
  end.

(** [result['index'] = i]. *)
Definition set_index (i : nat) (r : Result) : Result :=
  match r with
  | Analysis d t a tr l p _ => Analysis d t a tr l p (Some i)
  | Failure e t p _ => Failure e t p (Some i)
  end.

(** What a call [self.model(text)] does: it returns a list of raw results
    or raises. *)
Inductive ModelOutcome : Type :=
| ModelReturns (results : list RawResult)
| ModelRaises (msg : string).

(** The surroundings of the program: the classifier and the two clocks,
    the latter as the sequence of their successive readings. *)
Record Environment : Type := mkEnv {
  model : string -> ModelOutcome;
  time : nat -> Q;                 (* time.time() *)
  isoformat_now : nat -> string    (* datetime.now().isoformat() *)
}.

(** The part of the world the program changes: how many clock readings
    were taken, and the texts handed to the classifier, oldest first. *)
Record World : Type := mkWorld {
  ticks : nat;
  model_calls : list string
}.

Definition tick (w : World) : World :=
  {| ticks := S (ticks w); model_calls := model_calls w |}.

Definition log_call (text : string) (w : World) : World :=
  {| ticks := ticks w; model_calls := model_calls w ++ [text] |}.

Module SentimentAnalyzer.

Local Open Scope string_scope.

Definition _process_result (result : RawResult) : Exc SentimentData :=
  let label := label result in
  let score := score result in
  if contains "star" (lower label) then
    match split label with
    | [] => Raise IndexError
    | token :: _ =>
        match int token with
        | None => Raise (ValueError_int_literal token)
        | Some stars =>
            let '(sentiment, emoji, sentiment_score) :=
              if (stars <=? 2)%Z then (NEGATIVE, "😔", Qopp score)
              else if (stars =? 3)%Z then (NEUTRAL, "😐", 0%Q)
              else (POSITIVE, "😊", score) in
            Return {| sentiment := sentiment;
                      confidence := round score 4;
                      stars := stars;
                      emoji := emoji;
                      sentiment_score := round sentiment_score 4;
                      raw_label := label |}
        end
    end
  else
    let '(sentiment, emoji, stars, sentiment_score) :=
      if (upper label =? "POSITIVE") || (label =? "LABEL_1")
      then (POSITIVE, "😊", if gt score (9 # 10)%Q then 4%Z else 5%Z, score)
      else (NEGATIVE, "😔", if gt score (9 # 10)%Q then 2%Z else 1%Z, Qopp score) in
    Return {| sentiment := sentiment;
              confidence := round score 4;
              stars := stars;
              emoji := emoji;
              sentiment_score := round sentiment_score 4;
              raw_label := label |}.


Section Analyzer.

Variable env : Environment.

(** [self.model(text)[0]]. *)
Definition classify (text : string) : Exc RawResult :=
  match model env text with
  | ModelReturns [] => Raise IndexError
  | ModelReturns (result :: _) => Return result
  | ModelRaises msg => Raise (ClassifierError msg)
  end.

Definition analyze (text : string) (w : World) : Exc Result * World :=
  if (text =? "") || (strlen (str_strip text) =? 0)%nat then
    (Raise ValueError_empty_text, w)
  else
    let text_truncated :=
      if (500 <? strlen text)%nat then take_chars 500 text else text in
    let start_time := time env (ticks w) in
    let w := tick w in
    (* try: *)
    let w := log_call text_truncated w in
    let attempt :=
      match classify text_truncated with
      | Return result => _process_result result
      | Raise e => Raise e
      end in
    let processing_time := round (time env (ticks w) - start_time)%Q 3 in
    let w := tick w in
    match attempt with
    | Return sentiment_data =>
        (Return (Analysis sentiment_data text text_truncated
                   (500 <? strlen text)%nat (strlen text)
                   processing_time None), w)
    | Raise e =>
        (Return (Failure e text (Some processing_time) None), w)
    end.

(** The loop of [analyze_batch], from position [i] on. *)
Fixpoint analyze_batch_from (i : nat) (texts : list string) (w : World)
  : list Result * World :=
  match texts with
  | [] => ([], w)
  | text :: texts' =>
      let '(outcome, w) := analyze text w in
      let item :=
        match outcome with
        | Return result => set_index i result
        | Raise e =>
            Failure e
              (if (100 <? strlen text)%nat
               then take_chars 100 text ++ "..." else text)
              None (Some i)
        end in
      let '(results, w) := analyze_batch_from (S i) texts' w in
      (item :: results, w)
  end.

Definition analyze_batch (texts : list string) (w : World)
  : list Result * World :=
  analyze_batch_from 0 texts w.

End Analyzer.

End SentimentAnalyzer.

(* ================================================================== *)
(** * data/data_loader.py: the History Store and its statistics         *)
(* ================================================================== *)

(** An element of the history: a result to which [save_analysis] has
    added the key [timestamp]. *)
Record Entry : Type := mkEntry {
  entry : Result;
  timestamp : string
}.

Record SentimentCounts : Type := mkCounts {
  positive : nat;
  negative : nat;
  neutral : nat
}.

Record Percentages : Type := mkPercentages {
  pct_positive : Q;
  pct_negative : Q;
  pct_neutral : Q
}.

(** The three dictionaries [get_statistics] can return. *)
Inductive Statistics : Type :=
| NoHistory (total_analyzed : nat) (message : string)
| NoValidResults (total_analyzed valid_results errors : nat)
| Snapshot (total_analyzed valid_results errors : nat)
    (sentiments : SentimentCounts) (percentages : Percentages)
    (average_confidence average_stars average_processing_time : Q)
    (last_analysis : option string).

(** [r['sentiment']], [r['confidence']], [r['stars']] and
    [r['processing_time']], for the results that have the key.  A result
    with a sentiment has them all, so the guards ['stars' in r] and
    ['processing_time' in r] of [get_statistics] let every valid result
    through. *)
Definition sentiments_of (rs : list Result) : list Sentiment :=
  flat_map (fun r => match r with
                     | Analysis d _ _ _ _ _ _ => [sentiment d]
                     | Failure _ _ _ _ => []
                     end) rs.

Definition confidences_of (rs : list Result) : list Q :=
  flat_map (fun r => match r with
                     | Analysis d _ _ _ _ _ _ => [confidence d]
                     | Failure _ _ _ _ => []
                     end) rs.

Definition stars_of (rs : list Result) : list Q :=
  flat_map (fun r => match r with
                     | Analysis d _ _ _ _ _ _ => [inject_Z (stars d)]
                     | Failure _ _ _ _ => []
                     end) rs.

Definition processing_times_of (rs : list Result) : list Q :=
  flat_map (fun r => match r with
                     | Analysis _ _ _ _ _ p _ => [p]
                     | Failure _ _ (Some p) _ => [p]
                     | Failure _ _ None _ => []
                     end) rs.

(** [sentiments.count(s)]. *)
Definition count (s : Sentiment) (sentiments : list Sentiment) : nat :=
  count_occ Sentiment_eq_dec sentiments s.

(** [round(sentiments.count(s) / len(sentiments) * 100, 2)]. *)
Definition percentage (s : Sentiment) (sentiments : list Sentiment) : Q :=
  round (inject_Z (Z.of_nat (count s sentiments)) / len sentiments * 100)%Q 2.

(** [round(sum(xs) / len(xs), ndigits) if xs else 0]. *)
Definition average (xs : list Q) (ndigits : nat) : Q :=
  match xs with
  | [] => 0%Q
  | _ :: _ => round (sum xs / len xs)%Q ndigits
  end.

Module DataManager.

Definition save_analysis (history : list Entry) (result : Result)
  (now : string) : list Entry :=
  let history := history ++ [{| entry := result; timestamp := now |}] in
  if (1000 <? List.length history)%nat
  then slice_from (-1000) history
  else history.

Definition get_statistics (history : list Entry) : Statistics :=
  match history with
  | [] => NoHistory 0 "No hay datos históricos aún"%string
  | _ :: _ =>
      let valid_results := filter (fun h => has_sentiment (entry h)) history in
      match valid_results with
      | [] => NoValidResults (List.length history) 0 (List.length history)
      | first_valid :: _ =>
          let valid := map entry valid_results in
          let sentiments := sentiments_of valid in
          let confidences := confidences_of valid in
          let stars := stars_of valid in
          let processing_times := processing_times_of valid in
          Snapshot (List.length history) (List.length valid_results)
            (List.length history - List.length valid_results)
            {| positive := count POSITIVE sentiments;
               negative := count NEGATIVE sentiments;
               neutral := count NEUTRAL sentiments |}
            {| pct_positive := percentage POSITIVE sentiments;
               pct_negative := percentage NEGATIVE sentiments;
               pct_neutral := percentage NEUTRAL sentiments |}
            (average confidences 4)
            (average stars 2)
            (average processing_times 3)
            (Some (timestamp (last valid_results first_valid)))
      end
  end.

Definition get_recent_analyses (history : list Entry) (limit : Z)
  : list Entry :=
  match history with
  | [] => []
  | _ :: _ => slice_from (- limit) history
  end.

Definition clear_history (history : list Entry) : list Entry := [].

End DataManager.

(* ================================================================== *)
(** * utils/preprocessing.py: the Text Normalizer                       *)
(* ================================================================== *)

Module TextPreprocessor.

Local Open Scope string_scope.

(** [self.emoji_dict], in the order of the source. *)
Definition emoji_dict : list (string * string) :=
  [ ("😊", "feliz"); ("😃", "feliz"); ("😄", "muy feliz"); ("😁", "muy feliz");
    ("😍", "amor"); ("❤️", "amor"); ("😔", "triste"); ("😢", "triste");
    ("😭", "muy triste"); ("😡", "enojado"); ("😠", "enojado");
    ("😤", "frustrado"); ("👍", "bien"); ("👎", "mal"); ("⭐", "estrella");
    ("✨", "excelente"); ("💔", "decepcion"); ("🤮", "asco");
    ("😐", "neutral"); ("😑", "neutral"); ("🙄", "molesto") ].

Definition _convert_emojis (text : string) : string :=
  fold_left (fun text '(emoji, word) => replace emoji (" " ++ word ++ " ") text)
    emoji_dict text.

(** The classes of the URL pattern, in the order of its alternatives:
    [[a-zA-Z]], [[0-9]], [[$-_@.&+]] (whose [$-_] is a range) and
    [[!*\\(\\),]].  The fifth alternative, a percent sign and two
    hexadecimal digits, is never reached: the third one takes the percent
    sign, and nothing follows the repetition that could make the matcher
    come back to it. *)
Definition url_char (c : ascii) : bool :=
  (islower_char c || isupper_char c)
  || isdigit c
  || (in_range 36 95 c || (c =? "@")%char || (c =? ".")%char
      || (c =? "&")%char || (c =? "+")%char)
  || ((c =? "!")%char || (c =? "*")%char || (code c =? 92)%nat
      || (c =? "(")%char || (c =? ")")%char || (c =? ",")%char).

(** [http[s]?://(?:...)+], replaced by the empty string. *)
Definition match_url (s : string) : option (nat * string) :=
  let scheme :=
    if prefix "https://" s then Some 8
    else if prefix "http://" s then Some 7
    else None in
  match scheme with
  | None => None
  | Some k =>
      match run_length url_char (drop k s) with
      | O => None
      | S n => Some (k + S n, "")
      end
  end.

(** [@\w+], replaced by the empty string. *)
Definition match_mention (s : string) : option (nat * string) :=
  match s with
  | String "@" s' =>
      match run_length isword s' with
      | O => None
      | S n => Some (S (S n), "")
      end
  | _ => None
  end.

(** [#(\w+)], replaced by its group. *)
Definition match_hashtag (s : string) : option (nat * string) :=
  match s with
  | String "#" s' =>
      match run_length isword s' with
      | O => None
      | S n => Some (S (S n), take (S n) s')
      end
  | _ => None
  end.

(** The length of the shortest [.*?] after which [stop] comes; the dot
    matches no newline. *)
Fixpoint lazy_until (stop : ascii) (s : string) : option nat :=
  match s with
  | EmptyString => None
  | String c s' =>
      if (c =? stop)%char then Some 0
      else if (c =? newline)%char then None
      else option_map S (lazy_until stop s')
  end.

(** [<.*?>], replaced by the empty string. *)
Definition match_tag (s : string) : option (nat * string) :=
  match s with
  | String "<" s' =>
      match lazy_until ">" s' with
      | Some n => Some (S (S n), "")
      | None => None
      end
  | _ => None
  end.

(** [\s+], replaced by one space. *)
Definition match_spaces (s : string) : option (nat * string) :=
  match run_length isspace s with
  | O => None
  | S n => Some (S n, " ")
  end.

Definition clean_text (text : string) : string :=
  if text =? "" then ""
  else
    let text := _convert_emojis text in
    let text := sub_all match_url text in
    let text := sub_all match_mention text in
    let text := sub_all match_hashtag text in
    let text := sub_all match_tag text in
    let text := sub_all match_spaces text in
    strip text.



(** The accented letters [normalize_text] replaces, in the order of the
    source. *)
Definition replacements : list (string * string) :=
  [ ("á", "a"); ("é", "e"); ("í", "i"); ("ó", "o"); ("ú", "u"); ("ñ", "n"); ("ü", "u") ].

(** The class [[...]] built from [string.punctuation]: in it the
    backslash escapes the bracket that follows, so that every ASCII
    punctuation character but the backslash belongs to the class. *)
Definition punctuation_class (c : ascii) : bool :=
  in_range 33 47 c || in_range 58 64 c || (code c =? 91)%nat
  || in_range 93 96 c || in_range 123 126 c.

Definition normalize_text (text : string) : string :=
  let text := lower text in
  let text :=
    fold_left (fun text '(old, new) => replace old new text)
      replacements text in
  let text := sub_all (match_run punctuation_class " ") text in
  let text := sub_all (match_run isdigit "NUM") text in
  let text := sub_all match_spaces text in
  strip text.

Definition batch_clean (texts : list string) : list string :=
  map clean_text texts.




End TextPreprocessor.

(* ================================================================== *)
(** * main.py: the analysis endpoints                                   *)
(* ================================================================== *)

(** The JSON body of a request, [request.get_json()], with the keys the
    endpoints read, typed as the endpoints expect them: a text, a list of
    texts and a boolean.  The general handler of the batch endpoint is
    not part of the embedding: with such a body no exception reaches it,
    as [analyze_batch] keeps the exceptions of its items. *)
Record JsonBody : Type := mkBody {
  body_text : option string;
  body_texts : option (list string);
  body_preprocess : option bool
}.

(** The dictionary [calculate_batch_stats] returns: [{}] or the counts. *)
Inductive BatchStatistics : Type :=
| EmptyStatistics
| BatchStatistic (total valid errors : nat) (sentiments : SentimentCounts)
    (average_confidence : Q) (percentages : Percentages).

Inductive Response : Type :=
| BadRequest (code : string)                           (* status 400 *)
| ServerError (code : string) (error : PyException)    (* status 500 *)
| AnalyzeOk (result : Entry) (preprocessed : bool)     (* status 200 *)
| BatchOk (results : list Result) (statistics : BatchStatistics)
    (total_texts : nat) (preprocessed : bool).         (* status 200 *)

(** The state of the process: the world and [data_manager.history]. *)
Record App : Type := mkApp {
  world : World;
  history : list Entry
}.

Module Main.

Definition calculate_batch_stats (results : list Result) : BatchStatistics :=
  let valid_results := filter has_sentiment results in
  match valid_results with
  | [] => EmptyStatistics
  | _ :: _ =>
      let sentiments := sentiments_of valid_results in
      let confidences := confidences_of valid_results in
      let pct s := match sentiments with
                   | [] => 0%Q
                   | _ :: _ => percentage s sentiments
                   end in
      BatchStatistic (List.length results) (List.length valid_results)
        (List.length results - List.length valid_results)
        {| positive := count POSITIVE sentiments;
           negative := count NEGATIVE sentiments;
           neutral := count NEUTRAL sentiments |}
        (average confidences 4)
        {| pct_positive := pct POSITIVE;
           pct_negative := pct NEGATIVE;
           pct_neutral := pct NEUTRAL |}
  end.

Section Endpoints.

Variable env : Environment.

(** [data.get('preprocess', True)]. *)
Definition preprocess_of (data : JsonBody) : bool :=
  match body_preprocess data with
  | Some b => b
  | None => true
  end.

Definition analyze_text (data : option JsonBody) (app : App)
  : Response * App :=
  match data with
  | None => (BadRequest "MISSING_TEXT", app)
  | Some data =>
      match body_text data with
      | None => (BadRequest "MISSING_TEXT", app)
      | Some text =>
          let preprocess := preprocess_of data in
          if (5000 <? strlen text)%nat then
            (BadRequest "TEXT_TOO_LONG", app)
          else
            let text_processed :=
              if preprocess then TextPreprocessor.clean_text text else text in
            match SentimentAnalyzer.analyze env text_processed (world app) with
            | (Raise e, w) =>
                (ServerError "ANALYSIS_ERROR" e,
                 {| world := w; history := history app |})
            | (Return result, w) =>
                let now := isoformat_now env (ticks w) in
                let w := tick w in
                (AnalyzeOk {| entry := result; timestamp := now |} preprocess,
                 {| world := w;
                    history :=
                      DataManager.save_analysis (history app) result now |})
            end
      end
  end.

Definition analyze_batch (data : option JsonBody) (app : App)
  : Response * App :=
  match data with
  | None => (BadRequest "MISSING_TEXTS", app)
  | Some data =>
      match body_texts data with
      | None => (BadRequest "MISSING_TEXTS", app)
      | Some texts =>
          if (50 <? List.length texts)%nat then
            (BadRequest "TOO_MANY_TEXTS", app)
          else
            let preprocess := preprocess_of data in
            let texts_processed :=
              if preprocess then map TextPreprocessor.clean_text texts
              else texts in
            let '(results, w) :=
              SentimentAnalyzer.analyze_batch env texts_processed (world app) in
            let stats := calculate_batch_stats results in
            (BatchOk results stats (List.length texts) preprocess,
             {| world := w; history := history app |})
      end
  end.

(** [GET /api/stats]. *)
Definition get_stats (app : App) : Statistics :=
  DataManager.get_statistics (history app).

End Endpoints.

End Main.

(* ================================================================== *)
(** * Vocabulary of the specification                                   *)
(* ================================================================== *)

Section Vocabulary.

Open Scope string_scope.

(** The label belongs to the 5-star scheme: it mentions "star", whatever
    the case of its letters. *)
Definition five_star_scheme (label : string) : bool :=
  contains "star" (lower label).

(** The leading integer token of a label, when its first word is one. *)
Definition leading_integer (label : string) : option Z :=
  match split label with
  | [] => None
  | token :: _ => int token
  end.

(** The label is "POSITIVE" up to case, or the literal "LABEL_1". *)
Definition positive_label (label : string) : bool :=
  (upper label =? "POSITIVE") || (label =? "LABEL_1").

(** The 5-star mapping with the signed score itself as sentiment score. *)
Definition five_star_unrounded : Prop :=
  forall (label : string) (score : Q) (n : Z),
    five_star_scheme label = true ->
    (0 <= score <= 1)%Q ->
    leading_integer label = Some n ->
    exists d,
      SentimentAnalyzer._process_result (mkRaw label score) = Return d /\
      stars d = n /\
      confidence d = round score 4 /\
      ((n <= 2)%Z ->
       sentiment d = NEGATIVE /\ (sentiment_score d == - score)%Q) /\
      (n = 3%Z ->
       sentiment d = NEUTRAL /\ (sentiment_score d == 0)%Q) /\
      ((n >= 4)%Z ->
       sentiment d = POSITIVE /\ (sentiment_score d == score)%Q).

(** The binary mapping with the signed score itself as sentiment score. *)
Definition binary_unrounded : Prop :=
  forall (label : string) (score : Q),
    five_star_scheme label = false ->
    exists d,
      SentimentAnalyzer._process_result (mkRaw label score) = Return d /\
      (positive_label label = true ->
       sentiment d = POSITIVE /\
       stars d = (if gt score (9 # 10)%Q then 4%Z else 5%Z) /\
       (sentiment_score d == score)%Q) /\
      (positive_label label = false ->
       sentiment d = NEGATIVE /\
       stars d = (if gt score (9 # 10)%Q then 2%Z else 1%Z) /\
       (sentiment_score d == - score)%Q).

(** The last [n] elements of a sequence, in their order. *)
Definition lastn {A : Type} (n : nat) (xs : list A) : list A :=
  skipn (List.length xs - n) xs.



(** The text is empty or made of whitespace of the ASCII range only. *)
Definition blank_ascii (text : string) : bool := forallb_string isspace text.

(** The text is empty or made of whitespace characters only, read one
    character at a time; [skip] counts the bytes still to read of the
    character at hand. *)
Fixpoint all_space (skip : nat) (s : string) : bool :=
  match s with
  | EmptyString => true
  | String c s' =>
      match skip with
      | S k => all_space k s'
      | O =>
          match space_width s with
          | O => false
          | S k => all_space k s'
          end
      end
  end.

Definition blank (text : string) : bool := all_space 0 text.

(** The same, as a property: the text is a sequence of whitespace
    characters. *)
Inductive all_whitespace : string -> Prop :=
| all_whitespace_nil : all_whitespace ""
| all_whitespace_cons (w s : string) :
    In w whitespace -> all_whitespace s -> all_whitespace (w ++ s).

(** A byte of some whitespace character. *)
Definition whitespace_byte (c : ascii) : bool :=
  existsb (existsb_string (Ascii.eqb c)) whitespace.

(** The text that [analyze] hands to the classifier. *)
Definition classified (text : string) : string :=
  if (500 <? strlen text)%nat then take_chars 500 text else text.

(** [text_original] in the record of a batch item. *)
Definition batch_text_original (item : string) : string :=
  if blank item && (100 <? strlen item)%nat
  then take_chars 100 item ++ "..."
  else item.

(** [text_original] is the submitted text in every record of a batch. *)
Definition batch_text_original_always_full : Prop :=
  forall (env : Environment) (texts : list string) (w : World)
         (k : nat) (item : string) (r : Result),
    nth_error texts k = Some item ->
    nth_error (fst (SentimentAnalyzer.analyze_batch env texts w)) k = Some r ->
    text_original r = item.

(** A text of 101 spaces, and a text of 501 letters. *)
Definition long_blank : string := string_of_list_ascii (repeat " "%char 101).
Definition long_text : string := string_of_list_ascii (repeat "a"%char 501).

(** A text of 300 accented letters, of two bytes each, and a text of two
    no-break spaces. *)
Definition accented_text : string :=
  String.concat "" (repeat (bytes [195; 169]) 300).

Definition no_break_spaces : string := bytes [194; 160; 194; 160].

(** The reducer of the specification, for any sequence of records: over
    the records that have a sentiment, the count of each of the three
    categories and the mean confidence rounded to 4 decimals; nothing when
    no record has a sentiment. *)
Definition reduce (records : list Result) : option (SentimentCounts * Q) :=
  match filter has_sentiment records with
  | [] => None
  | valid =>
      Some ({| positive := count POSITIVE (sentiments_of valid);
               negative := count NEGATIVE (sentiments_of valid);
               neutral := count NEUTRAL (sentiments_of valid) |},
            round (sum (confidences_of valid) / len (confidences_of valid))%Q 4)
  end.

(** The sentiment counts and the mean confidence in the two statistics
    dictionaries, when they are there. *)
Definition history_view (s : Statistics) : option (SentimentCounts * Q) :=
  match s with
  | Snapshot _ _ _ counts _ average_confidence _ _ _ =>
      Some (counts, average_confidence)
  | _ => None
  end.

Definition batch_view (s : BatchStatistics) : option (SentimentCounts * Q) :=
  match s with
  | BatchStatistic _ _ _ counts average_confidence _ =>
      Some (counts, average_confidence)
  | EmptyStatistics => None
  end.



Definition sample_env : Environment :=
  {| model := fun text =>
       if text =? "boom" then ModelRaises "out of memory"
       else ModelReturns [mkRaw "5 stars" (9 # 10)%Q];
     time := fun n => inject_Z (Z.of_nat n);
     isoformat_now := fun _ => "2024-01-01T00:00:00" |}.

(** A history of two analyses and one classifier failure. *)
Definition sample_failure : Result :=
  Failure (ClassifierError "out of memory") "boom" (Some (1 # 1000)%Q) None.

Definition sample_history : list Entry :=
  [ mkEntry (Analysis (mkData POSITIVE (9 # 10) 5 "😊" (9 # 10) "5 stars")
               "good" "good" false 4 (2 # 1000) None) "2024-01-01T00:00:00";
    mkEntry sample_failure "2024-01-01T00:00:01";
    mkEntry (Analysis (mkData NEGATIVE (3 # 5) 1 "😔" (-3 # 5) "1 star")
               "bad" "bad" false 3 (4 # 1000) None) "2024-01-01T00:00:02" ].

(** The record has a confidence between 0 and 1 and between 1 and 5
    stars, if it has a sentiment. *)
Definition well_scored (r : Result) : Prop :=
  match r with
  | Analysis d _ _ _ _ _ _ =>
      (0 <= confidence d <= 1)%Q /\ (1 <= stars d <= 5)%Z
  | Failure _ _ _ _ => True
  end.

(** The runs of characters of the class [p] replaced by [repl], read one
    character at a time; [in_run] tells whether the previous character
    was of the class. *)
Fixpoint collapse (p : ascii -> bool) (repl : string) (in_run : bool)
  (s : string) : string :=
  match s with
  | EmptyString => EmptyString
  | String c s' =>
      if p c then
        if in_run then collapse p repl true s'
        else repl ++ collapse p repl true s'
      else String c (collapse p repl false s')
  end.

(** A word: a non-empty text without whitespace. *)
Definition is_word (w : string) : Prop :=
  w <> "" /\ forallb_string (fun c => negb (isspace c)) w = true.

(** The text left by the steps of [clean_text] that come before the
    normalisation of the whitespace. *)
Definition stripped_of_markup (text : string) : string :=
  sub_all TextPreprocessor.match_tag
    (sub_all TextPreprocessor.match_hashtag
       (sub_all TextPreprocessor.match_mention
          (sub_all TextPreprocessor.match_url
             (TextPreprocessor._convert_emojis text)))).

(** A classifier whose answers the Result Normalizer cannot read: a
    5-star label without a number, and no answer at all for "void". *)
Definition odd_env : Environment :=
  {| model := fun text =>
       if text =? "void" then ModelReturns []
       else ModelReturns [mkRaw "five stars" (1 # 2)%Q];
     time := fun n => inject_Z (Z.of_nat n);
     isoformat_now := fun _ => "2024-01-01T00:00:00" |}.

(** A letter, a digit or a whitespace character of the ASCII range. *)
Definition plain_char (c : ascii) : bool :=
  islower_char c || isupper_char c || isdigit c || isspace c.

(** The process at its start, with no persisted history. *)
Definition fresh_world : World := {| ticks := 0; model_calls := [] |}.
Definition fresh_app : App := {| world := fresh_world; history := [] |}.

End Vocabulary.

(* ================================================================== *)
(** * Properties of the Result Normalizer                               *)
(* ================================================================== *)

Section ResultNormalizer.

Import SentimentAnalyzer.

Lemma gt_spec (x y : Q) : gt x y = true <-> (y < x)%Q.
Proof.
  unfold gt. rewrite (Qgt_alt x y).
  destruct (Qcompare x y); split; congruence.
Qed.

Lemma gt_false (x y : Q) : gt x y = false <-> (x <= y)%Q.
Proof.
  unfold gt. rewrite Qle_alt.
  destruct (Qcompare x y); split; congruence.
Qed.

Lemma round_zero (ndigits : nat) : round 0 ndigits = 0%Q.
Proof.
  unfold round, round_half_even. reflexivity.
Qed.

(** C1, as amended.  A label of the 5-star scheme whose first word is an
    integer [n] is normalised to a record with [stars = n] and
    [confidence = round(score, 4)]; the sentiment is NEGATIVE for
    [n <= 2], NEUTRAL for [n = 3] and POSITIVE for [n >= 4], and the
    sentiment score is the signed score rounded to 4 decimals:
    [round(-score, 4)], [0] and [round(score, 4)] respectively. *)
Theorem process_result_five_star :
  forall (label : string) (score : Q) (n : Z),
    five_star_scheme label = true ->
    (0 <= score <= 1)%Q ->
    leading_integer label = Some n ->
    exists d,
      _process_result (mkRaw label score) = Return d /\
      stars d = n /\
      confidence d = round score 4 /\
      raw_label d = label /\
      ((n <= 2)%Z ->
       sentiment d = NEGATIVE /\ sentiment_score d = round (- score) 4) /\
      (n = 3%Z ->
       sentiment d = NEUTRAL /\ sentiment_score d = 0%Q) /\
      ((n >= 4)%Z ->
       sentiment d = POSITIVE /\ sentiment_score d = round score 4).
Proof.
  intros lbl sc n Hscheme _ Hlead.
  unfold five_star_scheme in Hscheme. unfold leading_integer in Hlead.
  unfold _process_result. cbn [label score].
  rewrite Hscheme.
  destruct (split lbl) as [|token rest]; [discriminate|].
  rewrite Hlead.
  destruct (Z.leb_spec n 2) as [Hle|Hgt].
  - eexists; repeat split; cbn; intros; try reflexivity; lia.
  - destruct (Z.eqb_spec n 3) as [He|Hne].
    + eexists; repeat split; cbn; intros;
        try reflexivity; try lia; apply round_zero.
    + eexists; repeat split; cbn; intros; try reflexivity; lia.
Qed.

Lemma process_result_five_star_witness :
  exists d,
    _process_result (mkRaw "4 stars" (87 # 100)) = Return d /\
    stars d = 4%Z /\ sentiment d = POSITIVE /\
    sentiment_score d = round (87 # 100) 4.
Proof.
  destruct (@process_result_five_star "4 stars" (87 # 100) 4%Z)
    as (d & Hd & Hs & _ & _ & _ & _ & Hpos).
  - reflexivity.
  - split; discriminate.
  - reflexivity.
  - exists d. destruct Hpos as [H1 H2]; [lia|]. auto.
Defined.

(** C1 as stated is refuted: with label "1 star" and score 0.123456 the
    sentiment score is -0.1235, not -0.123456. *)
Lemma five_star_unrounded_refuted : ~ five_star_unrounded.
Proof.
  intros H.
  destruct (H "1 star"%string (123456 # 1000000)%Q 1%Z)
    as (d & Hd & _ & _ & Hneg & _).
  - reflexivity.
  - split; discriminate.
  - reflexivity.
  - destruct Hneg as [_ Hscore]; [lia|].
    vm_compute in Hd. injection Hd as <-.
    vm_compute in Hscore. discriminate.
Qed.

(** An integer-free first word makes the 5-star branch raise. *)
Lemma process_result_not_an_integer :
  _process_result (mkRaw "five stars" (1 # 2)) =
  Raise (ValueError_int_literal "five").
Proof. reflexivity. Qed.

(** C2, as amended.  A label outside the 5-star scheme is normalised to
    POSITIVE when it is "POSITIVE" up to case or "LABEL_1", with 4 stars
    for a score above 0.9 and 5 otherwise, and to NEGATIVE in every other
    case, with 2 stars for a score above 0.9 and 1 otherwise; the
    sentiment score is [round(score, 4)], respectively
    [round(-score, 4)].  "POSITIVE" with 0.95 has 4 stars, and 5 with
    0.5. *)
Theorem process_result_binary :
  forall (label : string) (score : Q),
    five_star_scheme label = false ->
    exists d,
      _process_result (mkRaw label score) = Return d /\
      confidence d = round score 4 /\
      raw_label d = label /\
      (positive_label label = true ->
       sentiment d = POSITIVE /\
       ((9 # 10 < score)%Q -> stars d = 4%Z) /\
       ((score <= 9 # 10)%Q -> stars d = 5%Z) /\
       sentiment_score d = round score 4) /\
      (positive_label label = false ->
       sentiment d = NEGATIVE /\
       ((9 # 10 < score)%Q -> stars d = 2%Z) /\
       ((score <= 9 # 10)%Q -> stars d = 1%Z) /\
       sentiment_score d = round (- score) 4) /\
      (exists d95 d50,
         _process_result (mkRaw "POSITIVE" (95 # 100)) = Return d95 /\
         _process_result (mkRaw "POSITIVE" (5 # 10)) = Return d50 /\
         stars d95 = 4%Z /\ stars d50 = 5%Z).
Proof.
  intros lbl sc Hscheme.
  unfold five_star_scheme in Hscheme. unfold positive_label.
  unfold _process_result. cbn [label score].
  rewrite Hscheme.
  assert (Hparticular :
    exists d95 d50,
      _process_result (mkRaw "POSITIVE" (95 # 100)) = Return d95 /\
      _process_result (mkRaw "POSITIVE" (5 # 10)) = Return d50 /\
      stars d95 = 4%Z /\ stars d50 = 5%Z).
  { do 2 eexists. repeat split; reflexivity. }
  destruct ((upper lbl =? "POSITIVE")%string || (lbl =? "LABEL_1")%string);
    destruct (gt sc (9 # 10)) eqn:Hgt;
    eexists; (split; [reflexivity|]); cbn;
    repeat split; try discriminate; try assumption; intros;
    try (apply gt_false in Hgt; exfalso;
         eapply Qlt_not_le; eassumption);
    try (apply gt_spec in Hgt; exfalso;
         eapply Qlt_not_le; eassumption);
    try exact Hparticular.
Qed.

Lemma process_result_binary_witness :
  (exists d,
     _process_result (mkRaw "positive" (95 # 100)) = Return d /\
     sentiment d = POSITIVE /\ stars d = 4%Z /\
     sentiment_score d = round (95 # 100) 4) /\
  (exists d,
     _process_result (mkRaw "LABEL_0" (1 # 2)) = Return d /\
     sentiment d = NEGATIVE /\ stars d = 1%Z /\
     sentiment_score d = round (- (1 # 2)) 4).
Proof.
  split.
  - destruct (process_result_binary "positive" (95 # 100))
      as (d & Hd & _ & _ & Hpos & _ & _); [reflexivity|].
    exists d. destruct Hpos as (H1 & H2 & _ & H3); [reflexivity|].
    repeat split; auto. apply H2. reflexivity.
  - destruct (process_result_binary "LABEL_0" (1 # 2))
      as (d & Hd & _ & _ & _ & Hneg & _); [reflexivity|].
    exists d. destruct Hneg as (H1 & _ & H2 & H3); [reflexivity|].
    repeat split; auto. apply H2. discriminate.
Defined.

(** C2 as stated is refuted: with label "POSITIVE" and score 0.123456 the
    sentiment score is 0.1235, not 0.123456. *)
Lemma binary_unrounded_refuted : ~ binary_unrounded.
Proof.
  intros H.
  destruct (H "POSITIVE"%string (123456 # 1000000)%Q)
    as (d & Hd & Hpos & _).
  - reflexivity.
  - destruct Hpos as (_ & _ & Hscore); [reflexivity|].
    vm_compute in Hd. injection Hd as <-.
    vm_compute in Hscore. discriminate.
Qed.

End ResultNormalizer.

(* ================================================================== *)
(** * Properties of the History Store                                   *)
(* ================================================================== *)

Section HistoryStore.

Import DataManager.

Context {A : Type}.

Lemma slice_from_zero (xs : list A) : slice_from 0 xs = xs.
Proof.
  unfold slice_from. cbn. rewrite Z.min_l by lia. reflexivity.
Qed.

Lemma slice_from_negative (n : Z) (xs : list A) :
  (0 < n)%Z -> slice_from (- n) xs = lastn (Z.to_nat n) xs.
Proof.
  intros Hn. unfold slice_from, lastn.
  destruct (Z.ltb_spec (- n) 0) as [_|H]; [|lia].
  f_equal. lia.
Qed.

Lemma lastn_all (n : nat) (xs : list A) :
  List.length xs <= n -> lastn n xs = xs.
Proof.
  intros H. unfold lastn.
  replace (List.length xs - n) with 0 by lia. reflexivity.
Qed.

Lemma length_lastn (n : nat) (xs : list A) :
  List.length (lastn n xs) = Nat.min n (List.length xs).
Proof. unfold lastn. rewrite length_skipn. lia. Qed.

Lemma lastn_suffix (n : nat) (xs : list A) :
  firstn (List.length xs - n) xs ++ lastn n xs = xs.
Proof. apply firstn_skipn. Qed.


End HistoryStore.

Section HistoryStoreClaims.

Import DataManager.

Lemma save_analysis_lastn (history : list Entry) (result : Result)
  (now : string) :
  save_analysis history result now =
  lastn 1000 (history ++ [{| entry := result; timestamp := now |}]).
Proof.
  unfold save_analysis.
  destruct (Nat.ltb_spec 1000
              (List.length (history ++ [{| entry := result; timestamp := now |}])))
    as [Hlong|Hshort].
  - apply (slice_from_negative 1000). lia.
  - symmetry. apply lastn_all. exact Hshort.
Qed.




Lemma get_recent_analyses_positive (history : list Entry) (limit : Z) :
  (0 < limit)%Z ->
  get_recent_analyses history limit = lastn (Z.to_nat limit) history.
Proof.
  intros Hlimit. unfold get_recent_analyses.
  destruct history as [|h history]; [reflexivity|].
  apply slice_from_negative. exact Hlimit.
Qed.

(** C5, at the limit 0.  [get_recent_analyses] with [limit = 0] returns
    the whole history, not the empty sequence: [history[-0:]] is
    [history[0:]]. *)
Theorem get_recent_analyses_zero :
  forall history : list Entry, get_recent_analyses history 0 = history.
Proof.
  intros [|h history]; [reflexivity|].
  unfold get_recent_analyses. apply slice_from_zero.
Qed.

End HistoryStoreClaims.

(* ================================================================== *)
(** * Properties of the Text Normalizer                                 *)
(* ================================================================== *)

Section Features.

Import TextPreprocessor.



End Features.


(* ================================================================== *)
(** * Properties of the statistics                                      *)
(* ================================================================== *)

Section Statistics.

Import DataManager.
Import Main.

Lemma filter_entry (history : list Entry) :
  filter has_sentiment (map entry history) =
  map entry (filter (fun h => has_sentiment (entry h)) history).
Proof.
  induction history as [|h history IH]; cbn; [reflexivity|].
  rewrite IH. destruct (has_sentiment (entry h)); reflexivity.
Qed.

Lemma count_total (sentiments : list Sentiment) :
  count POSITIVE sentiments + count NEGATIVE sentiments
  + count NEUTRAL sentiments = List.length sentiments.
Proof.
  unfold count. induction sentiments as [|s sentiments IH]; [reflexivity|].
  destruct s; cbn; lia.
Qed.

Lemma length_sentiments_of_valid (records : list Result) :
  List.length (sentiments_of (filter has_sentiment records)) =
  List.length (filter has_sentiment records).
Proof.
  induction records as [|r records IH]; [reflexivity|].
  destruct r; cbn; [f_equal|]; exact IH.
Qed.

Lemma length_confidences_of_valid (records : list Result) :
  List.length (confidences_of (filter has_sentiment records)) =
  List.length (filter has_sentiment records).
Proof.
  induction records as [|r records IH]; [reflexivity|].
  destruct r; cbn; [f_equal|]; exact IH.
Qed.

Lemma average_nonempty (xs : list Q) (ndigits : nat) :
  xs <> [] -> average xs ndigits = round (sum xs / len xs)%Q ndigits.
Proof. destruct xs; [contradiction|reflexivity]. Qed.

Lemma confidences_of_valid_nonempty (records : list Result) :
  filter has_sentiment records <> [] ->
  confidences_of (filter has_sentiment records) <> [].
Proof.
  intros Hne Hnil. apply Hne. apply length_zero_iff_nil.
  rewrite <- length_confidences_of_valid, Hnil. reflexivity.
Qed.

(** The batch reducer is the reducer of the specification. *)
Lemma calculate_batch_stats_reduce (results : list Result) :
  batch_view (calculate_batch_stats results) = reduce results.
Proof.
  unfold calculate_batch_stats, reduce.
  pose proof (confidences_of_valid_nonempty results) as Hne.
  destruct (filter has_sentiment results) as [|v valid]; [reflexivity|].
  cbn [batch_view]. rewrite average_nonempty by (apply Hne; discriminate).
  reflexivity.
Qed.

(** The history aggregator, on the counts and the mean confidence, is the
    reducer of the specification. *)
Lemma get_statistics_reduce (history : list Entry) :
  history_view (get_statistics history) = reduce (map entry history).
Proof.
  unfold get_statistics, reduce.
  destruct history as [|h0 history]; [reflexivity|].
  rewrite filter_entry.
  pose proof (confidences_of_valid_nonempty (map entry (h0 :: history))) as Hne.
  rewrite filter_entry in Hne.
  destruct (filter (fun h => has_sentiment (entry h)) (h0 :: history))
    as [|v valid]; [reflexivity|].
  cbn [history_view]. rewrite average_nonempty by (apply Hne; discriminate).
  reflexivity.
Qed.

(** With a valid record at hand, the two reducers agree on the totals and
    on the percentages as well. *)
Lemma reducers_agree_with_valid (history : list Entry) :
  existsb (fun h => has_sentiment (entry h)) history = true ->
  exists total valid errors counts pct avg_conf avg_stars avg_time last,
    get_statistics history =
      Snapshot total valid errors counts pct avg_conf avg_stars avg_time last /\
    calculate_batch_stats (map entry history) =
      BatchStatistic total valid errors counts avg_conf pct.
Proof.
  intros Hvalid. unfold get_statistics, calculate_batch_stats.
  destruct history as [|h0 history]; [discriminate|].
  rewrite filter_entry.
  pose proof (length_sentiments_of_valid (map entry (h0 :: history))) as Hlen.
  rewrite filter_entry in Hlen.
  destruct (filter (fun h => has_sentiment (entry h)) (h0 :: history))
    as [|v valid] eqn:Hfilter.
  - apply existsb_exists in Hvalid as (h & Hin & Hh).
    assert (Hmem : In h (filter (fun h => has_sentiment (entry h))
                           (h0 :: history)))
      by (apply filter_In; split; assumption).
    rewrite Hfilter in Hmem. destruct Hmem.
  - do 9 eexists. split; [reflexivity|].
    cbn [map List.length] in *. rewrite !length_map.
    destruct (sentiments_of (entry v :: map entry valid)) as [|s0 ss];
      [discriminate Hlen|reflexivity].
Qed.

(** C8.  On every sequence of records, the history aggregator and the
    batch reducer give the same sentiment counts and the same mean
    confidence, both being those of the one reducer of the specification;
    they agree as well when no record has a sentiment, where neither
    reports counts nor a mean. *)
Theorem batch_and_history_reducers_agree :
  forall history : list Entry,
    let records := map entry history in
    batch_view (calculate_batch_stats records) =
      history_view (get_statistics history) /\
    history_view (get_statistics history) = reduce records /\
    (filter has_sentiment records = [] ->
     batch_view (calculate_batch_stats records) = None /\
     history_view (get_statistics history) = None).
Proof.
  intros history records.
  pose proof (calculate_batch_stats_reduce records) as Hb.
  pose proof (get_statistics_reduce history) as Hh.
  fold records in Hh.
  split; [congruence|]. split; [exact Hh|].
  intros Hnone. rewrite Hb, Hh. unfold reduce. rewrite Hnone.
  split; reflexivity.
Qed.

(** C10.  When some record of the history has a sentiment, the snapshot
    of the history aggregator has [valid_results + errors =
    total_analyzed] and its three sentiment counts add up to
    [valid_results]; the same identities hold in every non-empty
    dictionary of the batch reducer, which is empty exactly when no
    result has a sentiment. *)
Theorem statistics_counts_add_up :
  forall history : list Entry,
    existsb (fun h => has_sentiment (entry h)) history = true ->
    (exists total valid errors counts pct avg_conf avg_stars avg_time last,
       get_statistics history =
         Snapshot total valid errors counts pct avg_conf avg_stars avg_time last /\
       total = List.length history /\
       0 < valid /\
       valid + errors = total /\
       positive counts + negative counts + neutral counts = valid) /\
    (forall results : list Result,
       match calculate_batch_stats results with
       | EmptyStatistics => existsb has_sentiment results = false
       | BatchStatistic total valid errors counts _ _ =>
           existsb has_sentiment results = true /\
           total = List.length results /\
           valid + errors = total /\
           positive counts + negative counts + neutral counts = valid
       end).
Proof.
  intros history Hvalid. split.
  - unfold get_statistics.
    destruct history as [|h0 history]; [discriminate|].
    pose proof (filter_length_le (fun h => has_sentiment (entry h))
                  (h0 :: history)) as Hle.
    pose proof (length_sentiments_of_valid (map entry (h0 :: history))) as Hlen.
    rewrite filter_entry, length_map in Hlen.
    destruct (filter (fun h => has_sentiment (entry h)) (h0 :: history))
      as [|v valid] eqn:Hfilter.
    + apply existsb_exists in Hvalid as (h & Hin & Hh).
      assert (Hmem : In h (filter (fun h => has_sentiment (entry h))
                             (h0 :: history)))
        by (apply filter_In; split; assumption).
      rewrite Hfilter in Hmem. destruct Hmem.
    + do 9 eexists. split; [reflexivity|].
      cbn [positive negative neutral].
      rewrite count_total, Hlen. cbn [List.length] in *.
      repeat split; lia.
  - intros results. unfold calculate_batch_stats.
    pose proof (filter_length_le has_sentiment results) as Hle.
    pose proof (length_sentiments_of_valid results) as Hlen.
    destruct (filter has_sentiment results) as [|v valid] eqn:Hfilter.
    + destruct (existsb has_sentiment results) eqn:Hex; [|reflexivity].
      apply existsb_exists in Hex as (r & Hin & Hr).
      assert (Hmem : In r (filter has_sentiment results))
        by (apply filter_In; split; assumption).
      rewrite Hfilter in Hmem. destruct Hmem.
    + cbn [positive negative neutral].
      rewrite count_total, Hlen.
      assert (Hv : In v (filter has_sentiment results))
        by (rewrite Hfilter; left; reflexivity).
      apply filter_In in Hv as [Hin Hv].
      repeat split; try lia.
      apply existsb_exists. exists v. split; assumption.
Qed.

Lemma batch_and_history_reducers_agree_witness :
  history_view (get_statistics [mkEntry sample_failure ""]) = None /\
  batch_view (calculate_batch_stats (map entry sample_history)) =
    Some (mkCounts 1 1 0, (3 # 4)%Q) /\
  history_view (get_statistics sample_history) =
    Some (mkCounts 1 1 0, (3 # 4)%Q).
Proof.
  destruct (batch_and_history_reducers_agree [mkEntry sample_failure ""])
    as (_ & _ & Hnone).
  destruct (batch_and_history_reducers_agree sample_history)
    as (Hagree & Hreduce & _).
  split; [apply (Hnone eq_refl)|].
  split; [rewrite Hagree|]; rewrite Hreduce; reflexivity.
Defined.

Lemma statistics_counts_add_up_witness :
  exists pct avg_conf avg_stars avg_time last,
    get_statistics sample_history =
    Snapshot 3 2 1 (mkCounts 1 1 0) pct avg_conf avg_stars avg_time last.
Proof.
  destruct (statistics_counts_add_up sample_history eq_refl)
    as ((total & valid & errors & counts & pct & c & s & t & last
         & Hstats & _) & _).
  exists pct, c, s, t, last. rewrite Hstats.
  vm_compute in Hstats. injection Hstats as <- <- <- <- _ _ _ _ _.
  reflexivity.
Defined.

End Statistics.

(* ================================================================== *)
(** * Further properties of the Result Normalizer                       *)
(* ================================================================== *)

Section Rounding.

Lemma round_half_even_bounds (q : Q) (lo hi : Z) :
  (inject_Z lo <= q <= inject_Z hi)%Q ->
  (lo <= round_half_even q <= hi)%Z.
Proof.
  destruct q as [n d]. unfold Qle, inject_Z, round_half_even.
  cbn [Qnum Qden]. rewrite !Z.mul_1_r. intros [Hlo Hhi].
  pose proof (Z.div_mod n (Zpos d) ltac:(discriminate)) as Hdiv.
  pose proof (Z.mod_pos_bound n (Zpos d) ltac:(reflexivity)) as Hmod.
  assert (Hfloor : (lo <= n / Zpos d <= hi)%Z).
  { split.
    - apply Z.div_le_lower_bound; lia.
    - apply Z.div_le_upper_bound; lia. }
  assert (Hup : (0 < n mod Zpos d -> n / Zpos d + 1 <= hi)%Z).
  { intros Hrem. destruct (Z.eq_dec (n / Zpos d) hi) as [Heq|]; [|lia].
    exfalso. rewrite Heq in Hdiv. clear Hfloor Heq.
    generalize dependent (n mod Zpos d)%Z. intros r. nia. }
  clear Hlo Hhi Hdiv.
  generalize dependent (n mod Zpos d)%Z. generalize dependent (n / Zpos d)%Z.
  intros fl Hfloor r Hmod Hup.
  destruct (Z.ltb_spec (2 * r) (Zpos d)); [lia|].
  destruct (Z.ltb_spec (Zpos d) (2 * r)); [lia|].
  destruct (Z.even fl); lia.
Qed.

(** Rounding keeps a number between the integers it lies between. *)
Lemma round_bounds (x : Q) (ndigits : nat) (lo hi : Z) :
  (inject_Z lo <= x <= inject_Z hi)%Q ->
  (inject_Z lo <= round x ndigits <= inject_Z hi)%Q.
Proof.
  intros [Hlo Hhi]. unfold round.
  set (p := pow10 ndigits).
  assert (Hscaled :
    (inject_Z (lo * Zpos p) <= x * (Zpos p # 1) <= inject_Z (hi * Zpos p))%Q).
  { destruct x as [n d]. unfold Qle, inject_Z, Qmult in *. cbn in *. nia. }
  apply round_half_even_bounds in Hscaled.
  rewrite Qred_correct. unfold Qle, inject_Z. cbn. nia.
Qed.

End Rounding.

Section NormalizerInvariants.

Import SentimentAnalyzer.

Lemma round_unit (s : Q) (ndigits : nat) :
  (0 <= s <= 1)%Q -> (0 <= round s ndigits <= 1)%Q.
Proof. intros H. apply (round_bounds s ndigits 0 1). exact H. Qed.

Lemma round_neg_unit (s : Q) (ndigits : nat) :
  (0 <= s <= 1)%Q -> (- (1) <= round (- s) ndigits <= 0)%Q.
Proof.
  intros [H0 H1]. apply (round_bounds (- s) ndigits (-1) 0). split.
  - apply (Qopp_le_compat s 1). exact H1.
  - apply (Qopp_le_compat 0 s). exact H0.
Qed.

(** Every record the Result Normalizer returns for a score between 0 and
    1 has its confidence between 0 and 1 and its sentiment score between
    -1 and 1, of the sign of its sentiment: at most 0 for NEGATIVE, 0 for
    NEUTRAL, at least 0 for POSITIVE. *)
Theorem process_result_ranges :
  forall (result : RawResult) (d : SentimentData),
    (0 <= score result <= 1)%Q ->
    _process_result result = Return d ->
    (0 <= confidence d <= 1)%Q /\
    (- (1) <= sentiment_score d <= 1)%Q /\
    (sentiment d = NEGATIVE -> (sentiment_score d <= 0)%Q) /\
    (sentiment d = NEUTRAL -> sentiment_score d = 0%Q) /\
    (sentiment d = POSITIVE -> (0 <= sentiment_score d)%Q).
Proof.
  intros [lbl sc] d Hscore Hd. cbn [score] in Hscore.
  pose proof (round_unit sc 4 Hscore) as [Hc0 Hc1].
  pose proof (round_neg_unit sc 4 Hscore) as [Hn0 Hn1].
  assert (Hwide : (- (1) <= 0)%Q /\ (0 <= 1)%Q) by (split; discriminate).
  destruct Hwide as [Hm1 H01].
  unfold _process_result in Hd. cbn [label score] in Hd.
  destruct (contains "star" (lower lbl)).
  - destruct (split lbl) as [|token rest]; [discriminate|].
    destruct (int token) as [n|]; [|discriminate].
    destruct (n <=? 2)%Z; [|destruct (n =? 3)%Z];
      injection Hd as <-; cbn;
      repeat split; try discriminate; try assumption; intros;
      try (rewrite round_zero); try discriminate;
      eauto using Qle_trans.
  - destruct ((upper lbl =? "POSITIVE")%string || (lbl =? "LABEL_1")%string);
      injection Hd as <-; cbn;
      repeat split; try discriminate; try assumption; intros;
      eauto using Qle_trans.
Qed.

Lemma process_result_ranges_witness :
  exists d,
    _process_result (mkRaw "2 stars" (7 # 10)) = Return d /\
    (- (1) <= sentiment_score d <= 0)%Q.
Proof.
  eexists. split; [reflexivity|].
  destruct (process_result_ranges (mkRaw "2 stars" (7 # 10)) _
              ltac:(split; discriminate) eq_refl)
    as (_ & [Hlow _] & Hneg & _).
  split; [exact Hlow|]. apply Hneg. reflexivity.
Defined.

(** In every record the Result Normalizer returns, of either scheme, the
    sentiment and the stars agree: NEGATIVE goes with at most 2 stars,
    NEUTRAL with 3 and POSITIVE with at least 4; the record keeps the raw
    label and the score rounded to 4 decimals as confidence. *)
Theorem process_result_stars_agree :
  forall (result : RawResult) (d : SentimentData),
    _process_result result = Return d ->
    (sentiment d = NEGATIVE <-> (stars d <= 2)%Z) /\
    (sentiment d = NEUTRAL <-> stars d = 3%Z) /\
    (sentiment d = POSITIVE <-> (stars d >= 4)%Z) /\
    raw_label d = label result /\
    confidence d = round (score result) 4.
Proof.
  intros [lbl sc] d Hd.
  unfold _process_result in Hd. cbn [label score] in Hd.
  destruct (contains "star" (lower lbl)).
  - destruct (split lbl) as [|token rest]; [discriminate|].
    destruct (int token) as [n|]; [|discriminate].
    destruct (Z.leb_spec n 2); [|destruct (Z.eqb_spec n 3)];
      injection Hd as <-; cbn;
      repeat split; intros; try discriminate; try reflexivity; lia.
  - destruct ((upper lbl =? "POSITIVE")%string || (lbl =? "LABEL_1")%string);
      destruct (gt sc (9 # 10));
      injection Hd as <-; cbn;
      repeat split; intros; try discriminate; try reflexivity; lia.
Qed.

Lemma process_result_stars_agree_witness :
  exists d,
    _process_result (mkRaw "negative" (99 # 100)) = Return d /\
    sentiment d = NEGATIVE /\ (stars d <= 2)%Z.
Proof.
  eexists. split; [reflexivity|].
  destruct (process_result_stars_agree (mkRaw "negative" (99 # 100)) _ eq_refl)
    as ((_ & Hneg) & _).
  split; [apply Hneg|]; cbn; lia.
Defined.

End NormalizerInvariants.

(* ================================================================== *)
(** * Further properties of the analyzer                                *)
(* ================================================================== *)

Section SplitFacts.

Lemma split_from_some_nonempty (s : string) :
  forall w : string, split_from (Some w) s <> [].
Proof.
  induction s as [|c s IH]; intros w; cbn; [discriminate|].
  destruct (isspace c); [discriminate|apply IH].
Qed.

Lemma split_nil_blank (s : string) : split s = [] -> blank_ascii s = true.
Proof.
  unfold split. induction s as [|c s IH]; cbn; [reflexivity|].
  destruct (isspace c); cbn; [exact IH|].
  intros H. exfalso. exact (split_from_some_nonempty s _ H).
Qed.

Lemma isspace_lower_char (c : ascii) : isspace (lower_char c) = isspace c.
Proof. destruct c as [[] [] [] [] [] [] [] []]; reflexivity. Qed.

Lemma blank_lower (s : string) : blank_ascii (lower s) = blank_ascii s.
Proof.
  induction s as [|c s IH]; cbn; [reflexivity|].
  rewrite isspace_lower_char. f_equal. exact IH.
Qed.

Lemma blank_no_star (s : string) :
  blank_ascii s = true -> contains "star" s = false.
Proof.
  induction s as [|c s IH]; [reflexivity|].
  cbn [blank_ascii forallb_string contains].
  intros H. apply andb_prop in H as [Hc Hs]. rewrite (IH Hs).
  change (prefix "star" (String c s))
    with (if ascii_dec "s" c then prefix "tar" s else false).
  destruct (ascii_dec "s" c) as [<-|_]; [discriminate Hc|reflexivity].
Qed.

(** A label of the 5-star scheme has a first word. *)
Lemma five_star_has_token (label : string) :
  five_star_scheme label = true ->
  exists token rest, split label = token :: rest.
Proof.
  unfold five_star_scheme. intros Hstar.
  destruct (split label) as [|token rest] eqn:Hsplit; [|eauto].
  apply split_nil_blank in Hsplit. rewrite <- blank_lower in Hsplit.
  rewrite (blank_no_star _ Hsplit) in Hstar. discriminate.
Qed.

End SplitFacts.

Section NormalizerFailures.

Import SentimentAnalyzer.

(** [_process_result] never raises [IndexError]: its only failure is the
    [ValueError] of [int] on the first word of a 5-star label. *)
Lemma process_result_raises (result : RawResult) (e : PyException) :
  _process_result result = Raise e ->
  exists token rest,
    five_star_scheme (label result) = true /\
    split (label result) = token :: rest /\
    int token = None /\
    e = ValueError_int_literal token.
Proof.
  destruct result as [lbl sc]. unfold _process_result. cbn [label score].
  destruct (contains "star" (lower lbl)) eqn:Hstar.
  - destruct (five_star_has_token lbl Hstar) as (token & rest & ->).
    destruct (int token) eqn:Hint; [destruct (_ <=? _)%Z; [|destruct (_ =? _)%Z]; discriminate|].
    intros [= <-]. exists token, rest. auto.
  - destruct (_ || _); discriminate.
Qed.

End NormalizerFailures.

(* ================================================================== *)
(** * Further properties of the History Store and of the statistics     *)
(* ================================================================== *)

Section MoreHistory.

Import DataManager.

Lemma lastn_snoc {A : Type} (n : nat) (xs : list A) (x : A) :
  lastn (S n) (xs ++ [x]) = lastn n xs ++ [x].
Proof.
  unfold lastn. rewrite length_app, skipn_app. cbn [List.length].
  replace (List.length xs + 1 - S n) with (List.length xs - n) by lia.
  replace (List.length xs - n - List.length xs) with 0 by lia.
  reflexivity.
Qed.

(** [get_recent_analyses] by the sign of its limit: a positive limit
    gives the last [limit] entries, all of them when there are fewer; a
    negative limit [-k] does not fail but gives the history without its
    first [k] entries. *)
Theorem get_recent_analyses_by_sign :
  forall (history : list Entry) (limit : Z),
    ((0 < limit)%Z ->
     get_recent_analyses history limit = lastn (Z.to_nat limit) history /\
     List.length (get_recent_analyses history limit) =
       Nat.min (Z.to_nat limit) (List.length history) /\
     (exists older, history = older ++ get_recent_analyses history limit)) /\
    ((limit < 0)%Z ->
     get_recent_analyses history limit =
       skipn (Z.to_nat (- limit)) history).
Proof.
  intros history limit. split.
  - intros Hpos. rewrite (get_recent_analyses_positive history limit Hpos).
    split; [reflexivity|]. split; [apply length_lastn|].
    eexists. symmetry. apply lastn_suffix.
  - intros Hneg. unfold get_recent_analyses.
    destruct history as [|h history]; [now rewrite skipn_nil|].
    unfold slice_from. destruct (Z.ltb_spec (- limit) 0) as [|_]; [lia|].
    set (xs := h :: history).
    destruct (Z.le_gt_cases (- limit) (Z.of_nat (List.length xs))) as [Hin|Hout].
    + rewrite Z.min_l by exact Hin. reflexivity.
    + rewrite Z.min_r by lia. rewrite Nat2Z.id.
      rewrite !skipn_all2; [reflexivity| lia | lia].
Qed.

Lemma get_recent_analyses_by_sign_witness :
  get_recent_analyses sample_history 2 = tl sample_history /\
  get_recent_analyses sample_history (-2) = tl (tl sample_history).
Proof.
  destruct (get_recent_analyses_by_sign sample_history 2) as [Hpos _].
  destruct (get_recent_analyses_by_sign sample_history (-2)) as [_ Hneg].
  destruct (Hpos ltac:(reflexivity)) as (Hlast & _).
  split; [rewrite Hlast|rewrite (Hneg ltac:(reflexivity))]; reflexivity.
Defined.

Lemma get_statistics_snoc (history : list Entry) (e : Entry) :
  has_sentiment (entry e) = true ->
  exists valid errors counts pct conf stars time,
    get_statistics (history ++ [e]) =
      Snapshot (List.length history + 1) valid errors counts pct conf stars
        time (Some (timestamp e)) /\
    0 < valid.
Proof.
  intros Hvalid. unfold get_statistics.
  destruct (history ++ [e]) as [|x xs] eqn:Hxs;
    [destruct history; discriminate|].
  rewrite <- Hxs, filter_app, length_app. cbn [filter List.length].
  rewrite Hvalid.
  destruct (filter (fun h => has_sentiment (entry h)) history ++ [e])
    as [|v vs] eqn:Hvs;
    [destruct (filter (fun h => has_sentiment (entry h)) history);
     discriminate|].
  rewrite <- Hvs, last_last. do 7 eexists. split; [reflexivity|].
  rewrite Hvs. cbn. lia.
Qed.

(** Appending a record that has a sentiment and then aggregating gives a
    snapshot whose [last_analysis] is the timestamp of that append and
    whose [total_analyzed] is the size of the history after it: one more
    than before, up to the cap of 1000. *)
Theorem statistics_after_save :
  forall (history : list Entry) (result : Result) (now : string),
    has_sentiment result = true ->
    exists valid errors counts pct conf stars time,
      get_statistics (save_analysis history result now) =
        Snapshot (Nat.min 1000 (List.length history + 1)) valid errors
          counts pct conf stars time (Some now) /\
      0 < valid.
Proof.
  intros history result now Hvalid.
  rewrite save_analysis_lastn. rewrite (lastn_snoc 999).
  destruct (get_statistics_snoc (lastn 999 history)
              {| entry := result; timestamp := now |} Hvalid)
    as (valid & errors & counts & pct & conf & stars & time & Hstats & Hpos).
  exists valid, errors, counts, pct, conf, stars, time.
  split; [|exact Hpos]. rewrite Hstats, length_lastn. cbn [timestamp].
  f_equal. lia.
Qed.

Lemma statistics_after_save_witness :
  exists valid errors counts pct conf stars time,
    get_statistics
      (save_analysis [mkEntry sample_failure ""]
         (entry (hd (mkEntry sample_failure "") sample_history)) "12:00") =
    Snapshot 2 valid errors counts pct conf stars time (Some "12:00"%string).
Proof.
  destruct (statistics_after_save [mkEntry sample_failure ""]
              (entry (hd (mkEntry sample_failure "") sample_history))
              "12:00" eq_refl)
    as (valid & errors & counts & pct & conf & stars & time & Hstats & _).
  exists valid, errors, counts, pct, conf, stars, time. exact Hstats.
Defined.

End MoreHistory.

Section StatisticsBounds.

Import DataManager.
Import Main.

Lemma count_le_length (s : Sentiment) (sentiments : list Sentiment) :
  count s sentiments <= List.length sentiments.
Proof. unfold count. apply count_occ_bound. Qed.

Lemma ratio_bounds (c n : nat) :
  c <= n ->
  (inject_Z 0 <= inject_Z (Z.of_nat c) / inject_Z (Z.of_nat n) * 100
   <= inject_Z 100)%Q.
Proof.
  intros Hle. destruct n as [|n].
  - replace c with 0 by lia. split; discriminate.
  - unfold Qdiv, Qinv, Qmult, Qle, inject_Z. cbn. lia.
Qed.

Lemma percentage_bounds (s : Sentiment) (sentiments : list Sentiment) :
  (0 <= percentage s sentiments <= 100)%Q.
Proof.
  unfold percentage, len.
  apply (round_bounds _ 2 0 100), ratio_bounds, count_le_length.
Qed.

(** Each of the three percentages of a snapshot, and of a batch
    dictionary, lies between 0 and 100. *)
Theorem percentages_in_range :
  forall (history : list Entry) (results : list Result),
    let within (p : Percentages) :=
      (0 <= pct_positive p <= 100)%Q /\
      (0 <= pct_negative p <= 100)%Q /\
      (0 <= pct_neutral p <= 100)%Q in
    match get_statistics history with
    | Snapshot _ _ _ _ pct _ _ _ _ => within pct
    | _ => True
    end /\
    match calculate_batch_stats results with
    | BatchStatistic _ _ _ _ _ pct => within pct
    | EmptyStatistics => True
    end.
Proof.
  intros history results within. split.
  - unfold get_statistics. destruct history as [|h0 history]; [exact I|].
    destruct (filter _ (h0 :: history)); [exact I|].
    repeat split; apply percentage_bounds.
  - unfold calculate_batch_stats.
    destruct (filter has_sentiment results) as [|v vs]; [exact I|].
    cbn [pct_positive pct_negative pct_neutral within].
    destruct (sentiments_of (v :: vs));
      repeat split; try discriminate; apply percentage_bounds.
Qed.

Lemma sum_from_bounds (lo hi : Q) (xs : list Q) :
  Forall (fun x => (lo <= x <= hi)%Q) xs ->
  forall a : Q,
    (a + len xs * lo <= fold_left Qplus xs a <= a + len xs * hi)%Q.
Proof.
  unfold len. induction 1 as [|x xs [Hlo Hhi] _ IH]; intros a.
  - cbn [fold_left List.length]. change (inject_Z (Z.of_nat 0)) with 0%Q.
    split; lra.
  - cbn [fold_left List.length]. specialize (IH (a + x)%Q).
    rewrite Nat2Z.inj_succ, <- Z.add_1_r, inject_Z_plus.
    change (inject_Z 1) with 1%Q. destruct IH as [IHlo IHhi].
    split; lra.
Qed.

(** The mean of numbers between two integers, rounded, lies between
    them. *)
Lemma average_bounds (lo hi : Z) (xs : list Q) (ndigits : nat) :
  xs <> [] ->
  Forall (fun x => (inject_Z lo <= x <= inject_Z hi)%Q) xs ->
  (inject_Z lo <= average xs ndigits <= inject_Z hi)%Q.
Proof.
  intros Hne Hall. rewrite (average_nonempty xs ndigits Hne).
  apply round_bounds.
  destruct (sum_from_bounds _ _ xs Hall 0%Q) as [Hlo Hhi].
  fold (sum xs) in Hlo, Hhi.
  assert (Hpos : (0 < len xs)%Q).
  { unfold len. destruct xs; [contradiction|].
    unfold Qlt, inject_Z. cbn. lia. }
  split.
  - apply Qle_shift_div_l; [exact Hpos|]. lra.
  - apply Qle_shift_div_r; [exact Hpos|]. lra.
Qed.

Lemma confidences_of_Forall (P : Q -> Prop) (records : list Result) :
  Forall (fun r => match r with
                   | Analysis d _ _ _ _ _ _ => P (confidence d)
                   | Failure _ _ _ _ => True
                   end) records ->
  Forall P (confidences_of records).
Proof.
  induction 1 as [|r records Hr _ IH]; [constructor|].
  destruct r; cbn; [constructor|]; assumption.
Qed.

Lemma stars_of_Forall (P : Q -> Prop) (records : list Result) :
  Forall (fun r => match r with
                   | Analysis d _ _ _ _ _ _ => P (inject_Z (stars d))
                   | Failure _ _ _ _ => True
                   end) records ->
  Forall P (stars_of records).
Proof.
  induction 1 as [|r records Hr _ IH]; [constructor|].
  destruct r; cbn; [constructor|]; assumption.
Qed.

Lemma length_stars_of_valid (records : list Result) :
  List.length (stars_of (filter has_sentiment records)) =
  List.length (filter has_sentiment records).
Proof.
  induction records as [|r records IH]; [reflexivity|].
  destruct r; cbn; [f_equal|]; exact IH.
Qed.

(** Over a history whose records have confidences between 0 and 1 and
    stars between 1 and 5, the average confidence of the snapshot lies
    between 0 and 1 and its average stars between 1 and 5. *)
Theorem averages_in_range :
  forall history : list Entry,
    Forall (fun h => well_scored (entry h)) history ->
    match get_statistics history with
    | Snapshot _ _ _ _ _ average_confidence average_stars _ _ =>
        (0 <= average_confidence <= 1)%Q /\ (1 <= average_stars <= 5)%Q
    | _ => True
    end.
Proof.
  intros history Hall. unfold get_statistics.
  destruct history as [|h0 history]; [exact I|].
  set (valid := filter (fun h => has_sentiment (entry h)) (h0 :: history)).
  assert (Hvalid : Forall well_scored (map entry valid)).
  { apply Forall_map. apply Forall_forall. intros h Hin.
    apply filter_In in Hin as [Hin _].
    exact (proj1 (Forall_forall _ _) Hall h Hin). }
  pose proof (length_confidences_of_valid (map entry (h0 :: history))) as Hc.
  pose proof (length_stars_of_valid (map entry (h0 :: history))) as Hs.
  rewrite filter_entry in Hc, Hs. fold valid in Hc, Hs.
  destruct valid as [|v vs]; [exact I|].
  split.
  - apply (average_bounds 0 1).
    + intros Hnil. rewrite Hnil in Hc. discriminate.
    + apply confidences_of_Forall.
      apply (Forall_impl _ (P := well_scored)); [|exact Hvalid].
      intros [] H; [exact (proj1 H)|exact I].
  - apply (average_bounds 1 5).
    + intros Hnil. rewrite Hnil in Hs. discriminate.
    + apply stars_of_Forall.
      apply (Forall_impl _ (P := well_scored)); [|exact Hvalid].
      intros [] H; [|exact I]. destruct H as [_ [H1 H5]].
      split; unfold Qle, inject_Z; cbn; lia.
Qed.

Lemma averages_in_range_witness :
  exists total valid errors counts pct conf stars time last,
    get_statistics sample_history =
      Snapshot total valid errors counts pct conf stars time last /\
    (0 <= conf <= 1)%Q /\ (1 <= stars <= 5)%Q.
Proof.
  assert (Hall : Forall (fun h => well_scored (entry h)) sample_history).
  { repeat constructor; cbn; try discriminate; lia. }
  pose proof (averages_in_range sample_history Hall) as Hrange.
  destruct (get_statistics sample_history)
    as [| |total valid errors counts pct conf stars time last] eqn:Hstats;
    try discriminate Hstats.
  exists total, valid, errors, counts, pct, conf, stars, time, last.
  split; [reflexivity|exact Hrange].
Defined.

Lemma reducers_agree_with_valid_witness :
  exists total valid errors counts pct conf stars time last,
    get_statistics sample_history =
      Snapshot total valid errors counts pct conf stars time last /\
    calculate_batch_stats (map entry sample_history) =
      BatchStatistic total valid errors counts conf pct.
Proof. exact (reducers_agree_with_valid sample_history eq_refl). Defined.

End StatisticsBounds.

(* ================================================================== *)
(** * Further properties of the Text Normalizer                         *)
(* ================================================================== *)

Section Whitespace.

Local Open Scope string_scope.

Lemma append_nil_r (s : string) : s ++ "" = s.
Proof. induction s as [|c s IH]; cbn; [|rewrite IH]; reflexivity. Qed.

Lemma append_assoc (a b c : string) : (a ++ b) ++ c = a ++ (b ++ c).
Proof. induction a as [|x a IH]; cbn; [|rewrite IH]; reflexivity. Qed.

Lemma forallb_string_app (q : ascii -> bool) (a b : string) :
  forallb_string q (a ++ b) = forallb_string q a && forallb_string q b.
Proof.
  induction a as [|x a IH]; cbn; [reflexivity|].
  rewrite IH, andb_assoc. reflexivity.
Qed.

(** [re.sub] with the pattern [p+] reads the text one character at a
    time. *)
Lemma sub_from_collapse (p : ascii -> bool) (repl : string) (s : string) :
  sub_from (match_run p repl) (run_length p s) s = collapse p repl true s /\
  sub_from (match_run p repl) 0 s = collapse p repl false s.
Proof.
  induction s as [|c s [IHrun IHzero]]; [split; reflexivity|].
  assert (Hm : match_run p repl (String c s) =
               if p c then Some (S (run_length p s), repl) else None).
  { unfold match_run. cbn [run_length]. destruct (p c); reflexivity. }
  cbn [run_length collapse]. destruct (p c); cbn [sub_from];
    rewrite Hm; cbn [Nat.pred]; rewrite ?IHrun, ?IHzero; split; reflexivity.
Qed.

Lemma sub_all_collapse (p : ascii -> bool) (repl : string) (s : string) :
  sub_all (match_run p repl) s = collapse p repl false s.
Proof. apply sub_from_collapse. Qed.

End Whitespace.

Section Words.

Local Open Scope string_scope.

Lemma is_word_snoc (w : string) (c : ascii) :
  isspace c = false ->
  (w = "" \/ is_word w) -> is_word (w ++ String c "").
Proof.
  intros Hc Hw. split.
  - destruct w; discriminate.
  - rewrite forallb_string_app. cbn. rewrite Hc. cbn.
    destruct Hw as [->|[_ Hw]]; [reflexivity|].
    rewrite Hw. reflexivity.
Qed.

(** The words of [split] are words. *)
Lemma split_from_words (s : string) :
  forall acc : option string,
    match acc with Some w => is_word w | None => True end ->
    Forall is_word (split_from acc s).
Proof.
  induction s as [|c s IH]; intros acc Hacc; cbn.
  - destruct acc; constructor; [exact Hacc|constructor].
  - destruct (isspace c) eqn:Hc.
    + destruct acc; [constructor; [exact Hacc|]|]; apply IH; exact I.
    + apply IH. destruct acc as [w|].
      * apply is_word_snoc; [exact Hc|right; exact Hacc].
      * apply (is_word_snoc "" c Hc). left. reflexivity.
Qed.

Lemma split_words (s : string) : Forall is_word (split s).
Proof. apply split_from_words. exact I. Qed.

Lemma join_cons (w : string) (ws : list string) :
  join " " (w :: ws) =
  w ++ match ws with [] => "" | _ :: _ => " " ++ join " " ws end.
Proof. cbn. destruct ws; [rewrite append_nil_r|]; reflexivity. Qed.

Lemma join_words_empty (ws : list string) :
  Forall is_word ws -> join " " ws = "" -> ws = [].
Proof.
  intros Hws Hjoin. destruct Hws as [|w ws [Hne _] _]; [reflexivity|].
  rewrite join_cons in Hjoin. destruct w; [contradiction|discriminate].
Qed.

Lemma rstrip_keep (p : ascii -> bool) (c : ascii) (s : string) :
  p c = false -> rstrip_by p (String c s) = String c (rstrip_by p s).
Proof. intros Hc. cbn. rewrite Hc. destruct (rstrip_by p s); reflexivity. Qed.

Lemma rstrip_drop (p : ascii -> bool) (c : ascii) (s : string) :
  p c = true ->
  rstrip_by p (String c s) =
  match rstrip_by p s with "" => "" | r => String c r end.
Proof. intros Hc. cbn. rewrite Hc. reflexivity. Qed.

(** Collapsing the whitespace and dropping it at the end of the text
    gives the words of the text with one space between them.  The first
    statement is for a text read from the start of a word or from
    whitespace, the second one from inside a word [w]. *)
Lemma rstrip_collapse_join (s : string) :
  rstrip_by isspace (collapse isspace " " true s) =
    join " " (split_from None s) /\
  (forall w : string,
     is_word w ->
     w ++ rstrip_by isspace (collapse isspace " " false s) =
       join " " (split_from (Some w) s)).
Proof.
  induction s as [|c s [IHnone IHsome]].
  - split; [reflexivity|]. intros w _. cbn. apply append_nil_r.
  - cbn [collapse split_from]. destruct (isspace c) eqn:Hc.
    + split; [exact IHnone|].
      intros w Hw. rewrite join_cons.
      change (" " ++ collapse isspace " " true s)
        with (String " " (collapse isspace " " true s)).
      rewrite rstrip_drop by reflexivity. rewrite IHnone.
      pose proof (split_from_words s None I) as Hwords.
      destruct (split_from None s) as [|w' ws] eqn:Hsplit; [reflexivity|].
      destruct (join " " (w' :: ws)) eqn:Hjoin; [|reflexivity].
      apply (join_words_empty _ Hwords) in Hjoin. discriminate.
    + assert (Hone : is_word (String c ""))
        by (apply (is_word_snoc "" c Hc); left; reflexivity).
      rewrite (rstrip_keep isspace c _ Hc). split.
      * exact (IHsome (String c "") Hone).
      * intros w Hw. rewrite <- (IHsome (w ++ String c "")).
        -- rewrite append_assoc. reflexivity.
        -- apply is_word_snoc; [exact Hc|right; exact Hw].
Qed.

Lemma lstrip_collapse_true (s : string) :
  lstrip_by isspace (collapse isspace " " true s) =
  collapse isspace " " true s.
Proof.
  induction s as [|c s IH]; [reflexivity|].
  cbn [collapse]. destruct (isspace c) eqn:Hc; [exact IH|].
  cbn. rewrite Hc. reflexivity.
Qed.

Lemma lstrip_collapse_false (s : string) :
  lstrip_by isspace (collapse isspace " " false s) =
  collapse isspace " " true s.
Proof.
  destruct s as [|c s]; [reflexivity|].
  cbn [collapse]. destruct (isspace c) eqn:Hc.
  - change (" " ++ collapse isspace " " true s)
      with (String " " (collapse isspace " " true s)).
    cbn [lstrip_by]. change (isspace " ") with true. cbn iota.
    apply lstrip_collapse_true.
  - cbn. rewrite Hc. reflexivity.
Qed.

(** The last two steps of [clean_text] and of [normalize_text] amount to
    [' '.join(text.split())]. *)
Lemma strip_collapse_join (s : string) :
  strip (sub_all TextPreprocessor.match_spaces s) = join " " (split s).
Proof.
  change TextPreprocessor.match_spaces with (match_run isspace " ").
  rewrite sub_all_collapse. unfold strip.
  rewrite lstrip_collapse_false. apply rstrip_collapse_join.
Qed.

Lemma split_from_word (w : string) :
  forallb_string (fun c => negb (isspace c)) w = true ->
  forall (a s : string),
    split_from (Some a) (w ++ s) = split_from (Some (a ++ w)) s.
Proof.
  induction w as [|c w IH]; intros Hw a s.
  - rewrite append_nil_r. reflexivity.
  - cbn in Hw. apply andb_prop in Hw as [Hc Hw].
    apply negb_true_iff in Hc.
    cbn [append split_from]. rewrite Hc, (IH Hw), append_assoc.
    reflexivity.
Qed.

Lemma split_word_first (w s : string) :
  is_word w -> split_from None (w ++ s) = split_from (Some w) s.
Proof.
  intros [Hne Hw]. destruct w as [|c w]; [contradiction|].
  cbn in Hw. apply andb_prop in Hw as [Hc Hw]. apply negb_true_iff in Hc.
  cbn [append split_from]. rewrite Hc.
  apply (split_from_word w Hw (String c "") s).
Qed.

(** Splitting the words joined by single spaces gives the words back. *)
Lemma split_join (ws : list string) :
  Forall is_word ws -> split (join " " ws) = ws.
Proof.
  unfold split. induction 1 as [|w ws Hw Hws IH]; [reflexivity|].
  rewrite join_cons, (split_word_first w _ Hw).
  destruct ws as [|w' ws].
  - reflexivity.
  - change (" " ++ join " " (w' :: ws))
      with (String " " (join " " (w' :: ws))).
    cbn [split_from]. change (isspace " ") with true. cbn iota.
    rewrite IH. reflexivity.
Qed.

End Words.

Section JoinedWords.

Local Open Scope string_scope.

Lemma rstrip_word_app (w s : string) :
  forallb_string (fun c => negb (isspace c)) w = true ->
  rstrip_by isspace (w ++ s) = w ++ rstrip_by isspace s.
Proof.
  induction w as [|c w IH]; intros Hw; [reflexivity|].
  cbn in Hw. apply andb_prop in Hw as [Hc Hw]. apply negb_true_iff in Hc.
  cbn [append]. rewrite (rstrip_keep isspace c _ Hc), (IH Hw). reflexivity.
Qed.

Lemma contains_word_app (w s : string) :
  forallb_string (fun c => negb (isspace c)) w = true ->
  contains "  " (w ++ s) = contains "  " s.
Proof.
  induction w as [|c w IH]; intros Hw; [reflexivity|].
  cbn in Hw. apply andb_prop in Hw as [Hc Hw]. apply negb_true_iff in Hc.
  cbn [append contains]. rewrite (IH Hw).
  change (prefix "  " (String c (w ++ s)))
    with (if ascii_dec " " c then prefix " " (w ++ s) else false).
  destruct (ascii_dec " " c) as [<-|_]; [discriminate Hc|reflexivity].
Qed.

Lemma join_words_head (w : string) (ws : list string) :
  is_word w ->
  exists c rest, join " " (w :: ws) = String c rest /\ isspace c = false.
Proof.
  intros [Hne Hw]. rewrite join_cons. destruct w as [|c w]; [contradiction|].
  cbn in Hw. apply andb_prop in Hw as [Hc _]. apply negb_true_iff in Hc.
  exists c. eexists. split; [reflexivity|exact Hc].
Qed.

(** Words joined by single spaces have no whitespace at either end and
    no two spaces in a row. *)
Lemma join_words_tidy (ws : list string) :
  Forall is_word ws ->
  lstrip_by isspace (join " " ws) = join " " ws /\
  rstrip_by isspace (join " " ws) = join " " ws /\
  contains "  " (join " " ws) = false.
Proof.
  induction 1 as [|w ws Hw Hws (_ & IHr & IHc)]; [repeat split|].
  split; [|split].
  - destruct (join_words_head w ws Hw) as (c & rest & -> & Hc).
    cbn. rewrite Hc. reflexivity.
  - rewrite join_cons, (rstrip_word_app w _ (proj2 Hw)).
    destruct Hws as [|w' ws Hw' Hws]; [reflexivity|].
    change (" " ++ join " " (w' :: ws))
      with (String " " (join " " (w' :: ws))).
    rewrite rstrip_drop by reflexivity. rewrite IHr.
    destruct (join_words_head w' ws Hw') as (c & rest & -> & _).
    reflexivity.
  - rewrite join_cons, (contains_word_app w _ (proj2 Hw)).
    destruct Hws as [|w' ws Hw' Hws]; [reflexivity|].
    change (" " ++ join " " (w' :: ws))
      with (String " " (join " " (w' :: ws))).
    cbn [contains]. rewrite IHc.
    destruct (join_words_head w' ws Hw') as (c & rest & -> & Hc).
    change (prefix "  " (String " " (String c rest)))
      with (if ascii_dec " " c then prefix "" rest else false).
    destruct (ascii_dec " " c) as [<-|_]; [discriminate Hc|reflexivity].
Qed.

End JoinedWords.

Section TextNormalizer.

Import TextPreprocessor.

Local Open Scope string_scope.

Lemma clean_text_join (text : string) :
  clean_text text = join " " (split (stripped_of_markup text)).
Proof.
  unfold clean_text. destruct (String.eqb_spec text "") as [->|_];
    [reflexivity|]. apply strip_collapse_join.
Qed.











Lemma forallb_string_lstrip (q p : ascii -> bool) (s : string) :
  forallb_string q s = true -> forallb_string q (lstrip_by p s) = true.
Proof.
  induction s as [|c s IH]; [trivial|].
  intros H. cbn [lstrip_by]. destruct (p c); [|exact H].
  cbn in H. apply andb_prop in H as [_ Hs]. exact (IH Hs).
Qed.

Lemma forallb_string_rstrip (q p : ascii -> bool) (s : string) :
  forallb_string q s = true -> forallb_string q (rstrip_by p s) = true.
Proof.
  induction s as [|c s IH]; [trivial|].
  intros H. cbn in H. apply andb_prop in H as [Hc Hs]. specialize (IH Hs).
  cbn [rstrip_by]. destruct (rstrip_by p s).
  - destruct (p c); cbn; [reflexivity|]. rewrite Hc. reflexivity.
  - cbn [forallb_string]. rewrite Hc. exact IH.
Qed.

(** What goes through [re.sub] with the pattern [p+]: the characters
    outside the class and those of the replacement. *)
Lemma forallb_string_collapse (q p : ascii -> bool) (repl : string)
  (s : string) :
  forallb_string q repl = true ->
  forallb_string (fun c => p c || q c) s = true ->
  forall in_run : bool, forallb_string q (collapse p repl in_run s) = true.
Proof.
  intros Hrepl. induction s as [|c s IH]; intros Hs in_run; [reflexivity|].
  cbn in Hs. apply andb_prop in Hs as [Hc Hs]. cbn [collapse].
  destruct (p c).
  - destruct in_run; [|rewrite forallb_string_app, Hrepl]; apply (IH Hs).
  - cbn in Hc. cbn. rewrite Hc. apply (IH Hs).
Qed.

Lemma forallb_string_impl (q q' : ascii -> bool) (s : string) :
  (forall c, q c = true -> q' c = true) ->
  forallb_string q s = true -> forallb_string q' s = true.
Proof.
  intros Himpl. induction s as [|c s IH]; [trivial|]. cbn.
  intros H. apply andb_prop in H as [Hc Hs].
  rewrite (Himpl c Hc). exact (IH Hs).
Qed.

Lemma forallb_string_true (s : string) :
  forallb_string (fun _ => true) s = true.
Proof. induction s; [reflexivity|assumption]. Qed.

(** The text [normalize_text] returns holds no digit and no punctuation
    character other than the backslash, which the pattern built from
    [string.punctuation] lets through; its words are separated by single
    spaces, with no whitespace at either end. *)
Theorem normalize_text_shape :
  forall text : string,
    let out := normalize_text text in
    forallb_string
      (fun c => negb (isdigit c) && negb (punctuation_class c)) out = true /\
    join " " (split out) = out /\
    strip out = out /\
    contains "  " out = false.
Proof.
  intros text out.
  set (accents := fold_left (fun t '(old, new) => replace old new t)
                    replacements (lower text)).
  set (u2 := sub_all (match_run punctuation_class " ") accents).
  set (u3 := sub_all (match_run isdigit "NUM") u2).
  assert (Hout : out = strip (sub_all match_spaces u3)) by reflexivity.
  assert (H2 : forallb_string (fun c => negb (punctuation_class c)) u2 = true).
  { unfold u2. rewrite sub_all_collapse.
    apply forallb_string_collapse; [reflexivity|].
    apply (forallb_string_impl (fun _ => true) _ accents);
      [|apply forallb_string_true].
    intros c _. destruct (punctuation_class c); reflexivity. }
  assert (H3 : forallb_string
                 (fun c => negb (isdigit c) && negb (punctuation_class c))
                 u3 = true).
  { unfold u3. rewrite sub_all_collapse.
    apply forallb_string_collapse; [reflexivity|].
    apply (forallb_string_impl
             (fun c => negb (punctuation_class c)) _ u2); [|exact H2].
    intros c Hc. cbn beta. rewrite Hc. destruct (isdigit c); reflexivity. }
  split.
  - rewrite Hout. unfold strip.
    apply forallb_string_rstrip, forallb_string_lstrip.
    change match_spaces with (match_run isspace " ").
    rewrite sub_all_collapse.
    apply forallb_string_collapse; [reflexivity|].
    apply (forallb_string_impl
             (fun c => negb (isdigit c) && negb (punctuation_class c)) _ u3);
      [|exact H3].
    intros c Hc. rewrite Hc. apply orb_true_r.
  - rewrite Hout, strip_collapse_join.
    pose proof (split_words u3) as Hwords.
    destruct (join_words_tidy _ Hwords) as (Hl & Hr & Hc).
    rewrite (split_join _ Hwords). unfold strip. rewrite Hl, Hr.
    repeat split. exact Hc.
Qed.






End TextNormalizer.

Section TextNormalizerSamples.

Import TextPreprocessor.

Local Open Scope string_scope.



End TextNormalizerSamples.

Section PlainText.

Import TextPreprocessor.

Local Open Scope string_scope.

Lemma prefix_chars (q : ascii -> bool) (a : string) :
  forall s : string,
    prefix a s = true -> forallb_string q s = true ->
    forallb_string q a = true.
Proof.
  induction a as [|x a IH]; intros s Hprefix Hs; [reflexivity|].
  destruct s as [|c s]; [discriminate|].
  cbn [prefix] in Hprefix. destruct (ascii_dec x c) as [->|]; [|discriminate].
  cbn in Hs |- *. apply andb_prop in Hs as [Hc Hs].
  rewrite Hc. exact (IH s Hprefix Hs).
Qed.

(** A matcher that finds nothing in the texts of a class closed under
    suffixes leaves them as they are. *)
Lemma sub_all_inert (q : ascii -> bool) (m : string -> option (nat * string)) :
  (forall s, forallb_string q s = true -> m s = None) ->
  forall s, forallb_string q s = true -> sub_all m s = s.
Proof.
  intros Hm s. unfold sub_all.
  induction s as [|c s IH]; intros Hs; [reflexivity|].
  cbn [sub_from]. rewrite (Hm _ Hs).
  cbn in Hs. apply andb_prop in Hs as [_ Hs]. rewrite (IH Hs). reflexivity.
Qed.

Lemma replace_inert (q : ascii -> bool) (old new : string) :
  forallb_string q old = false ->
  forall s, forallb_string q s = true -> replace old new s = s.
Proof.
  intros Hold. unfold replace. apply sub_all_inert.
  intros s Hs. destruct (prefix old s) eqn:Hprefix; [|reflexivity].
  rewrite (prefix_chars q old s Hprefix Hs) in Hold. discriminate.
Qed.

Lemma convert_emojis_plain (s : string) :
  forallb_string plain_char s = true -> _convert_emojis s = s.
Proof.
  intros Hs. unfold _convert_emojis.
  assert (Hdict : Forall (fun p : string * string =>
                            forallb_string plain_char (fst p) = false)
                    emoji_dict)
    by (repeat constructor).
  induction Hdict as [|[emoji word] dict He _ IH]; cbn [fold_left];
    [reflexivity|].
  cbn in He. rewrite (replace_inert plain_char emoji _ He s Hs). exact IH.
Qed.

Lemma match_url_plain (s : string) :
  forallb_string plain_char s = true -> match_url s = None.
Proof.
  intros Hs. unfold match_url.
  destruct (prefix "https://" s) eqn:H1.
  - pose proof (prefix_chars plain_char _ s H1 Hs) as H. discriminate H.
  - destruct (prefix "http://" s) eqn:H2; [|reflexivity].
    pose proof (prefix_chars plain_char _ s H2 Hs) as H. discriminate H.
Qed.

Ltac by_plain_character c H :=
  destruct c as [[] [] [] [] [] [] [] []];
  first [ now (vm_compute in H) | reflexivity ].

Lemma match_mention_plain (s : string) :
  forallb_string plain_char s = true -> match_mention s = None.
Proof.
  destruct s as [|c s]; [reflexivity|]. cbn [forallb_string].
  intros H. apply andb_prop in H as [Hc _]. by_plain_character c Hc.
Qed.

Lemma match_hashtag_plain (s : string) :
  forallb_string plain_char s = true -> match_hashtag s = None.
Proof.
  destruct s as [|c s]; [reflexivity|]. cbn [forallb_string].
  intros H. apply andb_prop in H as [Hc _]. by_plain_character c Hc.
Qed.

Lemma match_tag_plain (s : string) :
  forallb_string plain_char s = true -> match_tag s = None.
Proof.
  destruct s as [|c s]; [reflexivity|]. cbn [forallb_string].
  intros H. apply andb_prop in H as [Hc _]. by_plain_character c Hc.
Qed.

(** On a text made of ASCII letters, digits and whitespace only,
    [clean_text] touches nothing but the whitespace: it returns the words
    of the text with one space between them, and the text itself when its
    words are already so separated. *)
Theorem clean_text_plain :
  forall text : string,
    forallb_string plain_char text = true ->
    clean_text text = join " " (split text) /\
    (join " " (split text) = text -> clean_text text = text).
Proof.
  intros text Hplain.
  assert (Hclean : clean_text text = join " " (split text)).
  { rewrite clean_text_join. unfold stripped_of_markup.
    rewrite (convert_emojis_plain text Hplain).
    rewrite (sub_all_inert plain_char match_url match_url_plain text Hplain).
    rewrite (sub_all_inert plain_char match_mention match_mention_plain
               text Hplain).
    rewrite (sub_all_inert plain_char match_hashtag match_hashtag_plain
               text Hplain).
    rewrite (sub_all_inert plain_char match_tag match_tag_plain text Hplain).
    reflexivity. }
  split; [exact Hclean|]. intros Htidy. rewrite Hclean. exact Htidy.
Qed.

Lemma clean_text_plain_witness :
  clean_text "  Muy   buen producto 10 " = "Muy buen producto 10" /\
  clean_text "Muy buen producto" = "Muy buen producto".
Proof.
  destruct (clean_text_plain "  Muy   buen producto 10 " eq_refl) as [H1 _].
  destruct (clean_text_plain "Muy buen producto" eq_refl) as [_ H2].
  split; [rewrite H1; reflexivity|apply H2; reflexivity].
Defined.

Lemma process_result_raises_witness :
  exists token rest,
    split "five stars" = token :: rest /\ int token = None.
Proof.
  destruct (process_result_raises (mkRaw "five stars" (1 # 2))
              (ValueError_int_literal "five") eq_refl)
    as (token & rest & _ & Hsplit & Hint & _).
  exists token, rest. split; [exact Hsplit|exact Hint].
Defined.

End PlainText.

(* ================================================================== *)
(** * Properties of the analysis pipeline                               *)
(* ================================================================== *)

Section TextCharacters.

Local Open Scope string_scope.

Lemma take_more_drop_more (s : string) :
  forall n : nat, take_more n s ++ drop_more n s = s.
Proof.
  induction s as [|c s IH]; intros n; [reflexivity|].
  cbn [take_more drop_more]. destruct (is_continuation c).
  - cbn. rewrite IH. reflexivity.
  - destruct n; [reflexivity|]. cbn. rewrite IH. reflexivity.
Qed.

(** A text is its first [n] characters followed by the others. *)
Lemma take_drop_chars (n : nat) (s : string) :
  take_chars n s ++ drop_chars n s = s.
Proof.
  destruct n as [|n], s as [|c s]; try reflexivity.
  cbn. rewrite take_more_drop_more. reflexivity.
Qed.

Lemma count_take_more (s : string) :
  forall n : nat,
    count_string begins_char (take_more n s) =
    Nat.min n (count_string begins_char s).
Proof.
  induction s as [|c s IH]; intros n; cbn [take_more count_string].
  - rewrite Nat.min_0_r. reflexivity.
  - unfold begins_char at 2. destruct (is_continuation c) eqn:Hc; cbn [negb].
    + cbn [count_string]. unfold begins_char at 1. rewrite Hc. cbn.
      apply IH.
    + destruct n; [reflexivity|]. cbn [count_string].
      unfold begins_char at 1. rewrite Hc. cbn. rewrite IH. reflexivity.
Qed.

(** The first [n] characters of a text are [n] characters, or the whole
    text when it has fewer. *)
Lemma strlen_take_chars (n : nat) (s : string) :
  strlen (take_chars n s) = Nat.min n (strlen s).
Proof.
  destruct n as [|n], s as [|c s]; try reflexivity.
  cbn [take_chars strlen]. rewrite count_take_more. reflexivity.
Qed.

Lemma strlen_nonempty (c : ascii) (s : string) : strlen (String c s) <> 0.
Proof. discriminate. Qed.

End TextCharacters.

Section UnicodeWhitespace.

Local Open Scope string_scope.

Lemma prefix_app (a : string) :
  forall s : string, prefix a s = true -> a ++ drop (String.length a) s = s.
Proof.
  induction a as [|x a IH]; intros s H; [reflexivity|].
  destruct s as [|c s]; [discriminate|].
  cbn [prefix] in H. destruct (ascii_dec x c) as [->|]; [|discriminate].
  cbn. rewrite (IH s H). reflexivity.
Qed.

Lemma drop_app (a s : string) : drop (String.length a) (a ++ s) = s.
Proof. induction a as [|x a IH]; [destruct s; reflexivity|exact IH]. Qed.

(** When the text begins with a whitespace character, [space_width] is
    the width of that character. *)
Lemma space_width_spec (s : string) (k : nat) :
  space_width s = S k ->
  exists w : string,
    In w whitespace /\ String.length w = S k /\ w ++ drop (S k) s = s.
Proof.
  unfold space_width.
  destruct (find (fun w => prefix w s) whitespace) as [w|] eqn:Hfind;
    [|discriminate].
  apply find_some in Hfind as [Hin Hprefix]. intros Hlen.
  exists w. rewrite <- Hlen. repeat split; [exact Hin|].
  apply prefix_app. exact Hprefix.
Qed.

Lemma space_width_head (w s : string) :
  In w whitespace -> space_width (w ++ s) = String.length w.
Proof.
  intros Hin. vm_compute in Hin.
  repeat (destruct Hin as [<-|Hin]; [destruct s; reflexivity|]).
  destruct Hin.
Qed.

Lemma all_space_lstrip (s : string) :
  forall skip : nat, all_space skip s = true -> lstrip_from skip s = "".
Proof.
  induction s as [|c s IH]; intros skip H; [reflexivity|].
  cbn [all_space lstrip_from] in *. destruct skip as [|k]; [|exact (IH k H)].
  destruct (space_width (String c s)); [discriminate|exact (IH _ H)].
Qed.

Lemma lstrip_not_all_space (s : string) :
  forall skip : nat,
    all_space skip s = false ->
    exists c t, lstrip_from skip s = String c t /\
                space_width (String c t) = 0.
Proof.
  induction s as [|c s IH]; intros skip H; [discriminate|].
  cbn [all_space lstrip_from] in *. destruct skip as [|k]; [|exact (IH k H)].
  destruct (space_width (String c s)) eqn:Hw; [|exact (IH _ H)].
  exists c, s. split; [reflexivity|exact Hw].
Qed.

(** [analyze] rejects exactly the blank texts. *)
Lemma strip_blank (text : string) :
  blank text = true -> str_strip text = "".
Proof.
  intros H. unfold str_strip. rewrite (all_space_lstrip text 0 H).
  reflexivity.
Qed.

Lemma strip_not_blank (text : string) :
  blank text = false -> str_strip text <> "".
Proof.
  intros H. unfold str_strip.
  destruct (lstrip_not_all_space text 0 H) as (c & t & -> & Hw).
  cbn [rstrip_from]. rewrite Hw. discriminate.
Qed.

Lemma all_space_skip (a s : string) :
  all_space (String.length a) (a ++ s) = all_space 0 s.
Proof. induction a as [|x a IH]; [reflexivity|exact IH]. Qed.

(** The two readings of a blank text agree. *)
Lemma all_space_whitespace (s : string) :
  forall skip : nat, all_space skip s = true -> all_whitespace (drop skip s).
Proof.
  induction s as [|c s IH]; intros skip H.
  - destruct skip; constructor.
  - cbn [all_space] in H. destruct skip as [|k]; [|exact (IH k H)].
    destruct (space_width (String c s)) as [|k] eqn:Hw; [discriminate|].
    destruct (space_width_spec _ _ Hw) as (w & Hin & _ & Heq).
    cbn [drop] in *. rewrite <- Heq.
    apply all_whitespace_cons; [exact Hin|exact (IH k H)].
Qed.

Lemma blank_whitespace (s : string) : blank s = true -> all_whitespace s.
Proof. intros H. exact (all_space_whitespace s 0 H). Qed.

Lemma whitespace_blank (s : string) : all_whitespace s -> blank s = true.
Proof.
  induction 1 as [|w s Hin _ IH]; [reflexivity|].
  destruct w as [|x w]; [exact IH|].
  unfold blank. cbn [append all_space].
  change (String x (w ++ s)) with (String x w ++ s).
  rewrite (space_width_head _ s Hin). cbn [String.length].
  rewrite all_space_skip. exact IH.
Qed.

Lemma whitespace_bytes (s : string) :
  all_whitespace s -> forallb_string whitespace_byte s = true.
Proof.
  assert (Htable : forallb (forallb_string whitespace_byte) whitespace = true)
    by (vm_compute; reflexivity).
  induction 1 as [|w s Hin _ IH]; [reflexivity|].
  rewrite forallb_string_app, IH, andb_true_r.
  exact (proj1 (forallb_forall _ _) Htable w Hin).
Qed.

(** A whitespace character is one whitespace byte of the ASCII range, or
    has no such byte. *)
Lemma whitespace_cases (w : string) :
  In w whitespace ->
  (exists c, w = String c "" /\ isspace c = true) \/
  (w <> "" /\ forallb_string (fun c => negb (isspace c)) w = true).
Proof.
  intros Hin. vm_compute in Hin.
  repeat (destruct Hin as [<-|Hin];
          [first [ left; eexists; split; reflexivity
                 | right; split; [discriminate|reflexivity] ]|]).
  destruct Hin.
Qed.

Lemma space_is_whitespace : In " " whitespace.
Proof. vm_compute. tauto. Qed.

Lemma collapse_word_app (w s : string) (repl : string) :
  w <> "" ->
  forallb_string (fun c => negb (isspace c)) w = true ->
  forall in_run : bool,
    collapse isspace repl in_run (w ++ s) =
    w ++ collapse isspace repl false s.
Proof.
  induction w as [|c w IH]; intros Hne Hw in_run; [contradiction|].
  cbn in Hw. apply andb_prop in Hw as [Hc Hw]. apply negb_true_iff in Hc.
  cbn [append collapse]. rewrite Hc. f_equal.
  destruct w as [|c' w]; [reflexivity|].
  apply IH; [discriminate|exact Hw].
Qed.

Lemma collapse_whitespace (s : string) :
  all_whitespace s ->
  forall in_run : bool, all_whitespace (collapse isspace " " in_run s).
Proof.
  induction 1 as [|w s Hin _ IH]; intros in_run; [constructor|].
  destruct (whitespace_cases w Hin) as [(c & -> & Hc)|[Hne Hw]].
  - cbn [append collapse]. rewrite Hc. destruct in_run; [apply IH|].
    change (all_whitespace (" " ++ collapse isspace " " true s)).
    apply all_whitespace_cons; [exact space_is_whitespace|apply IH].
  - rewrite (collapse_word_app w s " " Hne Hw).
    apply all_whitespace_cons; [exact Hin|apply IH].
Qed.

Lemma lstrip_whitespace (s : string) :
  all_whitespace s -> all_whitespace (lstrip_by isspace s).
Proof.
  induction 1 as [|w s Hin Hs IH]; [constructor|].
  destruct (whitespace_cases w Hin) as [(c & -> & Hc)|[Hne Hw]].
  - cbn [append lstrip_by]. rewrite Hc. exact IH.
  - destruct w as [|c w]; [contradiction|].
    cbn in Hw. apply andb_prop in Hw as [Hc _]. apply negb_true_iff in Hc.
    cbn [append lstrip_by]. rewrite Hc.
    change (String c (w ++ s)) with (String c w ++ s).
    apply all_whitespace_cons; assumption.
Qed.

Lemma rstrip_whitespace (s : string) :
  all_whitespace s -> all_whitespace (rstrip_by isspace s).
Proof.
  induction 1 as [|w s Hin Hs IH]; [constructor|].
  destruct (whitespace_cases w Hin) as [(c & -> & Hc)|[Hne Hw]].
  - cbn [append]. rewrite (rstrip_drop isspace c s Hc).
    destruct (rstrip_by isspace s) as [|c' r]; [constructor|].
    change (String c (String c' r)) with (String c "" ++ String c' r).
    apply all_whitespace_cons; assumption.
  - rewrite (rstrip_word_app w s Hw).
    apply all_whitespace_cons; assumption.
Qed.

Lemma match_url_whitespace (s : string) :
  forallb_string whitespace_byte s = true ->
  TextPreprocessor.match_url s = None.
Proof.
  intros Hs. unfold TextPreprocessor.match_url.
  destruct (prefix "https://" s) eqn:H1.
  - pose proof (prefix_chars whitespace_byte _ s H1 Hs) as H.
    vm_compute in H. discriminate H.
  - destruct (prefix "http://" s) eqn:H2; [|reflexivity].
    pose proof (prefix_chars whitespace_byte _ s H2 Hs) as H.
    vm_compute in H. discriminate H.
Qed.

Ltac by_whitespace_byte c H :=
  destruct c as [[] [] [] [] [] [] [] []];
  first [ now (vm_compute in H) | reflexivity ].

Lemma match_mention_whitespace (s : string) :
  forallb_string whitespace_byte s = true ->
  TextPreprocessor.match_mention s = None.
Proof.
  destruct s as [|c s]; [reflexivity|]. cbn [forallb_string].
  intros H. apply andb_prop in H as [Hc _]. by_whitespace_byte c Hc.
Qed.

Lemma match_hashtag_whitespace (s : string) :
  forallb_string whitespace_byte s = true ->
  TextPreprocessor.match_hashtag s = None.
Proof.
  destruct s as [|c s]; [reflexivity|]. cbn [forallb_string].
  intros H. apply andb_prop in H as [Hc _]. by_whitespace_byte c Hc.
Qed.

Lemma match_tag_whitespace (s : string) :
  forallb_string whitespace_byte s = true ->
  TextPreprocessor.match_tag s = None.
Proof.
  destruct s as [|c s]; [reflexivity|]. cbn [forallb_string].
  intros H. apply andb_prop in H as [Hc _]. by_whitespace_byte c Hc.
Qed.

Lemma convert_emojis_whitespace (s : string) :
  forallb_string whitespace_byte s = true ->
  TextPreprocessor._convert_emojis s = s.
Proof.
  intros Hs. unfold TextPreprocessor._convert_emojis.
  assert (Hdict : Forall (fun p : string * string =>
                            forallb_string whitespace_byte (fst p) = false)
                    TextPreprocessor.emoji_dict)
    by (repeat constructor).
  induction Hdict as [|[emoji word] dict He _ IH]; cbn [fold_left];
    [reflexivity|].
  cbn [fst] in He.
  rewrite (replace_inert whitespace_byte emoji _ He s Hs). exact IH.
Qed.

(** The Text Normalizer maps a blank text to a blank text. *)
Lemma clean_text_blank (text : string) :
  blank text = true -> blank (TextPreprocessor.clean_text text) = true.
Proof.
  intros H. apply whitespace_blank. apply blank_whitespace in H.
  pose proof (whitespace_bytes text H) as Hbytes.
  rewrite clean_text_join, <- strip_collapse_join.
  unfold stripped_of_markup.
  rewrite (convert_emojis_whitespace text Hbytes).
  rewrite (sub_all_inert whitespace_byte _ match_url_whitespace text Hbytes).
  rewrite (sub_all_inert whitespace_byte _ match_mention_whitespace
             text Hbytes).
  rewrite (sub_all_inert whitespace_byte _ match_hashtag_whitespace
             text Hbytes).
  rewrite (sub_all_inert whitespace_byte _ match_tag_whitespace text Hbytes).
  change TextPreprocessor.match_spaces with (match_run isspace " ").
  rewrite sub_all_collapse. unfold strip.
  apply rstrip_whitespace, lstrip_whitespace, collapse_whitespace.
  exact H.
Qed.

End UnicodeWhitespace.

Section Pipeline.

Import SentimentAnalyzer.

Variable env : Environment.

Lemma analyze_blank (text : string) (w : World) :
  blank text = true ->
  analyze env text w = (Raise ValueError_empty_text, w).
Proof.
  intros H. unfold analyze.
  rewrite (strip_blank text H), orb_true_r. reflexivity.
Qed.

Lemma accepted_guard (text : string) :
  blank text = false ->
  (text =? "")%string || (strlen (str_strip text) =? 0)%nat = false.
Proof.
  intros H. apply orb_false_intro.
  - destruct (String.eqb_spec text "") as [->|]; [discriminate|reflexivity].
  - pose proof (strip_not_blank text H) as Hne.
    destruct (str_strip text); [contradiction|reflexivity].
Qed.

(** What [analyze] does with a text it accepts. *)
Lemma analyze_accepted (text : string) (w : World) :
  blank text = false ->
  exists r,
    analyze env text w =
      (Return r, tick (log_call (classified text) (tick w))) /\
    text_original r = text /\
    index r = None /\
    (forall d o a tr l p i,
       r = Analysis d o a tr l p i ->
       a = classified text /\
       tr = (500 <? strlen text)%nat /\
       l = strlen text) /\
    (forall msg,
       model env (classified text) = ModelRaises msg ->
       exists p, r = Failure (ClassifierError msg) text (Some p) None).
Proof.
  intros H. unfold analyze. rewrite (accepted_guard text H).
  fold (classified text). cbv zeta. unfold classify.
  destruct (model env (classified text)) as [[|result results]|msg].
  - eexists; repeat split; try reflexivity; intros; discriminate.
  - destruct (_process_result result) as [d|e].
    + eexists; split; [reflexivity|]. repeat split; congruence.
    + eexists; repeat split; try reflexivity; intros; discriminate.
  - eexists; split; [reflexivity|]. repeat split; try discriminate.
    intros msg' Hmsg. injection Hmsg as <-. eexists. reflexivity.
Qed.

Lemma analyze_batch_from_nth (texts : list string) :
  forall (i : nat) (w : World) (k : nat) (item : string),
    nth_error texts k = Some item ->
    exists r,
      nth_error (fst (analyze_batch_from env i texts w)) k = Some r /\
      index r = Some (i + k) /\
      text_original r = batch_text_original item.
Proof.
  induction texts as [|text texts IH]; intros i w k item Hk.
  - destruct k; discriminate.
  - cbn [analyze_batch_from].
    destruct (analyze env text w) as [outcome w1] eqn:Hone.
    destruct (analyze_batch_from env (S i) texts w1) as [results w2] eqn:Hrest.
    destruct k as [|k]; cbn [nth_error fst].
    + injection Hk as <-. eexists; split; [reflexivity|].
      rewrite Nat.add_0_r. unfold batch_text_original.
      destruct (blank text) eqn:Hblank.
      * rewrite (analyze_blank text w Hblank) in Hone.
        injection Hone as <- <-. cbn. split; [reflexivity|].
        destruct (100 <? strlen text)%nat; reflexivity.
      * destruct (analyze_accepted text w Hblank) as (r & Hr & Ho & _).
        rewrite Hr in Hone. injection Hone as <- <-. cbn [andb].
        destruct r; cbn in *; auto.
    + cbn in Hk. destruct (IH (S i) w1 k item Hk) as (r & Hr & Hi & Ho).
      rewrite Hrest in Hr. cbn [fst] in Hr.
      exists r. repeat split; [exact Hr| |exact Ho].
      rewrite Hi. f_equal. lia.
Qed.

(** C6.  A blank text, made of whitespace characters only or empty,
    makes [analyze] raise the invalid-input error and leaves the world as
    it was: the classifier is not called.  A classifier failure, in
    contrast, is returned as an error record.  The single-text endpoint
    answers a blank text with an error and leaves the state of the
    process, and so the history, unchanged. *)
Theorem blank_text_rejected :
  forall (text : string) (w : World),
    blank text = true ->
    all_whitespace text /\
    analyze env text w = (Raise ValueError_empty_text, w) /\
    (forall (text' : string) (msg : string),
       blank text' = false ->
       model env (classified text') = ModelRaises msg ->
       exists p w',
         analyze env text' w =
           (Return (Failure (ClassifierError msg) text' (Some p) None), w') /\
         model_calls w' = model_calls w ++ [classified text']) /\
    (forall (data : JsonBody) (app : App),
       body_text data = Some text ->
       exists response,
         Main.analyze_text env (Some data) app = (response, app) /\
         (response = ServerError "ANALYSIS_ERROR" ValueError_empty_text \/
          response = BadRequest "TEXT_TOO_LONG") /\
         (strlen text <= 5000 ->
          response = ServerError "ANALYSIS_ERROR" ValueError_empty_text)).
Proof.
  intros text w Hblank. split; [|split; [|split]].
  - apply blank_whitespace. exact Hblank.
  - apply analyze_blank. exact Hblank.
  - intros text' msg Hacc Hmsg.
    destruct (analyze_accepted text' w Hacc) as (r & Hr & _ & _ & _ & Hfail).
    destruct (Hfail msg Hmsg) as (p & ->).
    exists p. eexists. split; [exact Hr|]. reflexivity.
  - intros data app Htext. unfold Main.analyze_text. rewrite Htext.
    destruct (Nat.ltb_spec 5000 (strlen text)) as [Hlong|Hshort].
    + eexists. split; [reflexivity|]. split; [right; reflexivity|]. lia.
    + assert (Hprocessed :
        blank (if Main.preprocess_of data
               then TextPreprocessor.clean_text text else text) = true).
      { destruct (Main.preprocess_of data); [|exact Hblank].
        exact (clean_text_blank text Hblank). }
      rewrite (analyze_blank _ (world app) Hprocessed).
      eexists. split; [destruct app; reflexivity|].
      split; [left; reflexivity|]. reflexivity.
Qed.

(** C7, as amended.  A text that [analyze] accepts is classified whole
    when it has at most 500 characters and otherwise through its first
    500 characters; a success record says so in [text_analyzed] and
    [text_truncated], and every record [analyze] returns keeps the full
    text as [text_original].  In a batch, the record of an accepted item
    keeps the full text as well, while the record of a blank item keeps
    it only up to 100 characters: beyond, it holds the first 100
    characters followed by "...". *)
Theorem truncation_and_text_original :
  forall (text : string) (w : World),
    blank text = false ->
    (exists r w',
       analyze env text w = (Return r, w') /\
       model_calls w' = model_calls w ++ [classified text] /\
       text_original r = text /\
       (forall d o a tr l p i,
          r = Analysis d o a tr l p i ->
          a = classified text /\
          tr = (500 <? strlen text)%nat /\
          l = strlen text)) /\
    (500 < strlen text ->
       classified text = take_chars 500 text /\
       strlen (classified text) = 500 /\
       (classified text ++ drop_chars 500 text)%string = text) /\
    (strlen text <= 500 -> classified text = text) /\
    (forall (texts : list string) (k : nat) (item : string),
       nth_error texts k = Some item ->
       exists r,
         nth_error (fst (analyze_batch env texts w)) k = Some r /\
         index r = Some k /\
         text_original r =
           if blank item && (100 <? strlen item)%nat
           then (take_chars 100 item ++ "...")%string
           else item).
Proof.
  intros text w Hacc. repeat split.
  - destruct (analyze_accepted text w Hacc) as (r & Hr & Ho & _ & Hs & _).
    exists r. eexists. split; [exact Hr|]. repeat split; try exact Ho.
    all: intros; edestruct Hs as (H1 & H2 & H3); eauto.
  - unfold classified.
    destruct (Nat.ltb_spec 500 (strlen text)); [reflexivity|lia].
  - unfold classified. destruct (Nat.ltb_spec 500 (strlen text)); [|lia].
    rewrite strlen_take_chars. lia.
  - unfold classified. destruct (Nat.ltb_spec 500 (strlen text)); [|lia].
    apply take_drop_chars.
  - intros H. unfold classified.
    destruct (Nat.ltb_spec 500 (strlen text)); [lia|reflexivity].
  - intros texts k item Hk.
    destruct (analyze_batch_from_nth texts 0 w k item Hk) as (r & Hr & Hi & Ho).
    exists r. repeat split; assumption.
Qed.

(** C9, the batch endpoint.  Whatever the request, [analyze_batch] leaves
    [data_manager.history] as it was: none of its results is appended. *)
Theorem batch_endpoint_keeps_history :
  forall (data : option JsonBody) (app : App),
    history (snd (Main.analyze_batch env data app)) = history app.
Proof.
  intros [data|] app; [|reflexivity].
  unfold Main.analyze_batch.
  destruct (body_texts data) as [texts|]; [|reflexivity].
  destruct (50 <? List.length texts)%nat; [reflexivity|].
  destruct (analyze_batch env _ (world app)) as [results w].
  reflexivity.
Qed.

(** The single-text endpoint, for comparison, appends the record of every
    text that [analyze] accepts. *)
Lemma single_endpoint_appends (data : JsonBody) (text : string) (app : App) :
  body_text data = Some text ->
  strlen text <= 5000 ->
  let text_processed :=
    if Main.preprocess_of data then TextPreprocessor.clean_text text else text in
  blank text_processed = false ->
  exists r now,
    fst (analyze env text_processed (world app)) = Return r /\
    history (snd (Main.analyze_text env (Some data) app)) =
    DataManager.save_analysis (history app) r now.
Proof.
  intros Htext Hlen text_processed Hacc.
  unfold Main.analyze_text. rewrite Htext.
  destruct (Nat.ltb_spec 5000 (strlen text)) as [|_]; [lia|].
  fold text_processed.
  destruct (analyze_accepted text_processed (world app) Hacc) as (r & Hr & _).
  rewrite Hr. do 2 eexists. split; reflexivity.
Qed.

(** A classifier answer that the Result Normalizer cannot read does not
    make [analyze] raise: a 5-star label whose first word is no integer
    gives an error record with the [ValueError], an empty answer gives
    one with the [IndexError], and in both cases the classifier was
    called once and the full text is kept. *)
Theorem analyze_keeps_normalizer_errors :
  forall (text : string) (w : World),
    blank text = false ->
    let w' := tick (log_call (classified text) (tick w)) in
    (forall (result : RawResult) (rest : list RawResult),
       model env (classified text) = ModelReturns (result :: rest) ->
       five_star_scheme (label result) = true ->
       leading_integer (label result) = None ->
       exists token p,
         hd_error (split (label result)) = Some token /\
         analyze env text w =
           (Return (Failure (ValueError_int_literal token) text (Some p) None),
            w')) /\
    (model env (classified text) = ModelReturns [] ->
     exists p,
       analyze env text w =
         (Return (Failure IndexError text (Some p) None), w')).
Proof.
  intros text w Hacc w'. split.
  - intros result rest Hmodel Hstar Hlead.
    destruct (five_star_has_token _ Hstar) as (token & others & Hsplit).
    unfold leading_integer in Hlead. rewrite Hsplit in Hlead.
    unfold analyze. rewrite (accepted_guard text Hacc).
    fold (classified text). cbv zeta. unfold classify. rewrite Hmodel.
    unfold _process_result. unfold five_star_scheme in Hstar.
    rewrite Hstar, Hsplit, Hlead.
    exists token. eexists. split; [reflexivity|]. reflexivity.
  - intros Hmodel. unfold analyze. rewrite (accepted_guard text Hacc).
    fold (classified text). cbv zeta. unfold classify. rewrite Hmodel.
    eexists. reflexivity.
Qed.

Lemma analyze_batch_from_effect (texts : list string) :
  forall (i : nat) (w : World),
    let accepted := filter (fun t => negb (blank t)) texts in
    List.length (fst (analyze_batch_from env i texts w)) = List.length texts /\
    map index (fst (analyze_batch_from env i texts w)) =
      map Some (seq i (List.length texts)) /\
    model_calls (snd (analyze_batch_from env i texts w)) =
      model_calls w ++ map classified accepted /\
    ticks (snd (analyze_batch_from env i texts w)) =
      ticks w + 2 * List.length accepted.
Proof.
  induction texts as [|text texts IH]; intros i w; cbn zeta.
  - cbn. rewrite app_nil_r. repeat split. lia.
  - cbn [analyze_batch_from filter].
    destruct (analyze env text w) as [outcome w1] eqn:Hone.
    specialize (IH (S i) w1). cbv zeta in IH.
    destruct (analyze_batch_from env (S i) texts w1) as [results w2].
    cbn [fst snd] in *. destruct IH as (Hlen & Hidx & Hcalls & Hticks).
    destruct (blank text) eqn:Hblank; cbn [negb].
    + rewrite (analyze_blank text w Hblank) in Hone.
      injection Hone as <- <-.
      cbn [List.length map seq index]. rewrite Hlen, Hidx.
      repeat split; assumption.
    + destruct (analyze_accepted text w Hblank) as (r & Hr & _ & Hi & _).
      rewrite Hr in Hone. injection Hone as <- <-.
      cbn [List.length map seq]. rewrite Hlen, Hidx, Hcalls, Hticks.
      cbn [tick log_call model_calls ticks].
      rewrite <- app_assoc. repeat split; try lia.
      f_equal. destruct r; reflexivity.
Qed.

(** What a batch does to the world: the classifier is called once for
    each item that is not blank, in the order of the items and with the
    text [analyze] classifies, the item whole or its first 500
    characters, and the clock is read twice for each of them; every
    item, blank or not, gets its record, numbered by its position. *)
Theorem analyze_batch_effect :
  forall (texts : list string) (w : World),
    let accepted := filter (fun t => negb (blank t)) texts in
    let results := fst (analyze_batch env texts w) in
    let after := snd (analyze_batch env texts w) in
    List.length results = List.length texts /\
    map index results = map Some (seq 0 (List.length texts)) /\
    model_calls after = model_calls w ++ map classified accepted /\
    ticks after = ticks w + 2 * List.length accepted.
Proof.
  intros texts w. exact (analyze_batch_from_effect texts 0 w).
Qed.

(** A batch over two lists in a row is the batch over the first list
    followed, from the world it leaves, by the batch over the second one
    numbered from the length of the first: no item changes what the batch
    does with the others. *)
Theorem analyze_batch_app :
  forall (xs ys : list string) (i : nat) (w : World),
    analyze_batch_from env i (xs ++ ys) w =
    (fst (analyze_batch_from env i xs w)
       ++ fst (analyze_batch_from env (i + List.length xs) ys
                 (snd (analyze_batch_from env i xs w))),
     snd (analyze_batch_from env (i + List.length xs) ys
            (snd (analyze_batch_from env i xs w)))).
Proof.
  induction xs as [|x xs IH]; intros ys i w.
  - cbn. rewrite Nat.add_0_r. destruct (analyze_batch_from env i ys w).
    reflexivity.
  - cbn [app analyze_batch_from List.length].
    destruct (analyze env x w) as [outcome w1].
    rewrite (IH ys (S i) w1).
    replace (i + S (List.length xs)) with (S i + List.length xs) by lia.
    destruct (analyze_batch_from env (S i) xs w1) as [r1 w2]. reflexivity.
Qed.

(** The single-text endpoint changes the state of the process only with
    an answer 200: then the text, within 5000 characters, was normalised
    if asked, was not blank, went to the classifier once, and the entry
    answered is the one appended to the history, stamped with the
    reading of the clock.  With every other answer the history and the
    world are as before. *)
Theorem analyze_text_discipline :
  forall (data : option JsonBody) (app : App),
    match Main.analyze_text env data app with
    | (AnalyzeOk e preprocessed, app') =>
        exists (body : JsonBody) (text : string),
          data = Some body /\ body_text body = Some text /\
          strlen text <= 5000 /\
          preprocessed = Main.preprocess_of body /\
          let processed :=
            if preprocessed then TextPreprocessor.clean_text text else text in
          blank processed = false /\
          text_original (entry e) = processed /\
          history app' =
            DataManager.save_analysis (history app) (entry e) (timestamp e) /\
          model_calls (world app') =
            model_calls (world app) ++ [classified processed] /\
          timestamp e = isoformat_now env (ticks (world app) + 2)
    | (_, app') => app' = app
    end.
Proof.
  intros [body|] app; [|reflexivity]. unfold Main.analyze_text.
  destruct (body_text body) as [text|] eqn:Htext; [|reflexivity].
  destruct (Nat.ltb_spec 5000 (strlen text)) as [|Hlen]; [reflexivity|].
  set (processed := if Main.preprocess_of body
                    then TextPreprocessor.clean_text text else text).
  destruct (blank processed) eqn:Hblank.
  - rewrite (analyze_blank processed (world app) Hblank).
    destruct app; reflexivity.
  - destruct (analyze_accepted processed (world app) Hblank)
      as (r & Hr & Ho & _).
    rewrite Hr. exists body, text. fold processed.
    cbn [entry timestamp history world tick log_call ticks model_calls].
    repeat split; try assumption; try reflexivity.
    rewrite Nat.add_comm. reflexivity.
Qed.

End Pipeline.

Section PipelineSamples.

Import SentimentAnalyzer.

Local Open Scope string_scope.

(** The Unicode cases: 300 accented letters are 600 bytes and are
    classified whole; two no-break spaces are a blank text. *)
Lemma accented_text_whole :
  String.length accented_text = 600 /\
  exists d p w,
    analyze sample_env accented_text fresh_world =
      (Return (Analysis d accented_text accented_text false 300 p None), w).
Proof. split; [reflexivity|]. do 3 eexists. vm_compute. reflexivity. Qed.

Lemma blank_text_rejected_witness :
  analyze sample_env "   " fresh_world = (Raise ValueError_empty_text, fresh_world) /\
  analyze sample_env no_break_spaces fresh_world =
    (Raise ValueError_empty_text, fresh_world) /\
  (exists p w',
     analyze sample_env "boom" fresh_world =
       (Return (Failure (ClassifierError "out of memory") "boom" (Some p) None),
        w')) /\
  Main.analyze_text sample_env (Some (mkBody (Some "   ") None None)) fresh_app =
    (ServerError "ANALYSIS_ERROR" ValueError_empty_text, fresh_app).
Proof.
  destruct (blank_text_rejected sample_env "   " fresh_world eq_refl)
    as (_ & Hraise & Hfail & Hendpoint).
  destruct (blank_text_rejected sample_env no_break_spaces fresh_world eq_refl)
    as (_ & Hunicode & _).
  split; [exact Hraise|]. split; [exact Hunicode|]. split.
  - destruct (Hfail "boom"%string "out of memory"%string eq_refl eq_refl)
      as (p & w' & Hp & _).
    exists p, w'. exact Hp.
  - destruct (Hendpoint (mkBody (Some "   "%string) None None) fresh_app eq_refl)
      as (response & Hr & _ & Hcode).
    rewrite Hr, Hcode; [reflexivity|]. apply Nat.leb_le. reflexivity.
Defined.

Lemma truncation_and_text_original_witness :
  strlen (classified long_text) = 500 /\
  classified "good" = "good" /\
  classified accented_text = accented_text /\
  (exists r,
     nth_error (fst (analyze_batch sample_env [long_text; long_blank]
                       fresh_world)) 1
       = Some r /\
     text_original r = take_chars 100 long_blank ++ "...").
Proof.
  destruct (truncation_and_text_original sample_env long_text fresh_world
              eq_refl) as (_ & Hlong & _ & Hbatch).
  destruct (truncation_and_text_original sample_env "good" fresh_world
              eq_refl) as (_ & _ & Hshort & _).
  destruct (truncation_and_text_original sample_env accented_text fresh_world
              eq_refl) as (_ & _ & Haccented & _).
  split; [|split; [|split]].
  - apply Hlong. apply Nat.ltb_lt. reflexivity.
  - apply Hshort. apply Nat.leb_le. reflexivity.
  - apply Haccented. apply Nat.leb_le. reflexivity.
  - destruct (Hbatch [long_text; long_blank] 1 long_blank eq_refl)
      as (r & Hr & _ & Ho).
    exists r. split; [exact Hr|exact Ho].
Defined.

(** C7 as stated is refuted: in a batch, the record of an item of 101
    spaces holds 100 spaces and "...". *)
Lemma batch_text_original_refuted : ~ batch_text_original_always_full.
Proof.
  intros H.
  specialize (H sample_env [long_blank] fresh_world 0 long_blank
                (Failure ValueError_empty_text
                   (take_chars 100 long_blank ++ "...")%string None (Some 0))
                eq_refl eq_refl).
  vm_compute in H. discriminate.
Qed.

(** C9 at a concrete request: a batch of one text yields one analysis and
    no history entry, where the single-text endpoint records it. *)
Lemma batch_endpoint_sample :
  (exists d p stats w,
     Main.analyze_batch sample_env
       (Some (mkBody None (Some ["good"%string]) (Some false))) fresh_app =
     (BatchOk [Analysis d "good" "good" false 4 p (Some 0)] stats 1 false,
      {| world := w; history := [] |})) /\
  (exists d p now w,
     Main.analyze_text sample_env
       (Some (mkBody (Some "good"%string) None (Some false))) fresh_app =
     (AnalyzeOk (mkEntry (Analysis d "good" "good" false 4 p None) now) false,
      {| world := w;
         history := [mkEntry (Analysis d "good" "good" false 4 p None) now] |})).
Proof.
  split; do 4 eexists; vm_compute; reflexivity.
Qed.

Lemma analyze_keeps_normalizer_errors_witness :
  (exists p w,
     analyze odd_env "odd" fresh_world =
       (Return (Failure (ValueError_int_literal "five") "odd" (Some p) None),
        w)) /\
  (exists p w,
     analyze odd_env "void" fresh_world =
       (Return (Failure IndexError "void" (Some p) None), w)).
Proof.
  destruct (analyze_keeps_normalizer_errors odd_env "odd" fresh_world eq_refl)
    as [Hvalue _].
  destruct (analyze_keeps_normalizer_errors odd_env "void" fresh_world eq_refl)
    as [_ Hindex].
  split.
  - destruct (Hvalue (mkRaw "five stars" (1 # 2)) [] eq_refl eq_refl eq_refl)
      as (token & p & Htoken & Hp).
    injection Htoken as <-. exists p. eexists. exact Hp.
  - destruct (Hindex eq_refl) as (p & Hp). exists p. eexists. exact Hp.
Defined.

End PipelineSamples.
